(** * Kalshi Alpha Suite: a shallow embedding of the signal-and-execution engine

    Python floats are modelled as exact rationals [Q]; Python ints as [Z].
    JSON payloads (exchange responses, LLM answers) are modelled by the
    inductive type [json]; Python exceptions by [PyExc] and the small error
    monad [Outcome]; side effects (trade journal, outbound POSTs, sleeps) by
    explicit state passing over [World]. *)

From Stdlib Require Import ZArith QArith Qabs Qround Qminmax Lqa List String Ascii Bool Lia.
Import ListNotations.

Local Open Scope Z_scope.

(* ------------------------------------------------------------------ *)
(** ** Python numeric helpers *)

Module Py.
Local Open Scope Q_scope.

Definition ltb (a b : Q) : bool := negb (Qle_bool b a).
Definition leb (a b : Q) : bool := Qle_bool a b.

(** [max(a, b)]: the first argument unless the second is strictly larger. *)
Definition max (a b : Q) : Q := if ltb a b then b else a.
(** [min(a, b)]: the first argument unless the second is strictly smaller. *)
Definition min (a b : Q) : Q := if ltb b a then b else a.

(** [int(x)] on a float: truncation toward zero. *)
Definition int (x : Q) : Z := Z.quot (Qnum x) (Zpos (Qden x)).

(** [round(x)]: round half to even. *)
Definition round_half_even (x : Q) : Z :=
  let f := Qfloor x in
  match Qcompare (x - inject_Z f) (1 # 2) with
  | Lt => f
  | Gt => (f + 1)%Z
  | Eq => if Z.even f then f else (f + 1)%Z
  end.

(** [round(x, n)] with [n] decimal digits. *)
Definition round (x : Q) (n : Z) : Q :=
  let scale := inject_Z (10 ^ n) in
  inject_Z (round_half_even (x * scale)) / scale.
End Py.

(* ------------------------------------------------------------------ *)
(** ** Exceptions, the error monad and JSON values *)

Inductive PyExc :=
| TypeError
| ValueError
| KeyError
| IndexError
| AttributeError
| JSONDecodeError
| HTTPStatusError (status : Z)        (* httpx raise_for_status *)
| KalshiAPIError (status : Z)
| KalshiRateLimitError
| TransportError
| OpenAIError
| KalshiAuthError.

Inductive Outcome (A : Type) : Type :=
| Ok (a : A)
| Raised (e : PyExc).
Arguments Ok {A} a.
Arguments Raised {A} e.

Definition bind {A B} (m : Outcome A) (k : A -> Outcome B) : Outcome B :=
  match m with
  | Ok a => k a
  | Raised e => Raised e
  end.

Notation "x <- m ;; k" := (bind m (fun x => k))
  (at level 61, m at next level, right associativity).

Local Set Warnings "-register-all".
Local Set Warnings "-abstract-large-number".

(** A decoded JSON value, as [json.loads] returns it.  Numbers are
    rationals, so a value holds finite numbers only: the [NaN] and
    [Infinity] literals that [json.loads] accepts are not represented. *)
Inductive json :=
| JNull
| JBool (b : bool)
| JNum (q : Q)
| JStr (s : string)
| JArr (l : list json)
| JObj (kvs : list (string * json)).

Module Json.
(** Lookup in a decoded object: [json.loads] keeps the last binding of a
    duplicated key. *)
Fixpoint lookup (k : string) (kvs : list (string * json)) : option json :=
  match kvs with
  | [] => None
  | (k', v) :: rest =>
      match lookup k rest with
      | Some w => Some w
      | None => if String.eqb k k' then Some v else None
      end
  end.

(** [v.get(k, d)] *)
Definition get (v : json) (k : string) (d : json) : Outcome json :=
  match v with
  | JObj kvs => match lookup k kvs with Some w => Ok w | None => Ok d end
  | _ => Raised AttributeError
  end.

(** [v[k]] with a string key *)
Definition getitem (v : json) (k : string) : Outcome json :=
  match v with
  | JObj kvs => match lookup k kvs with Some w => Ok w | None => Raised KeyError end
  | _ => Raised TypeError
  end.

(** [v[0]] *)
Definition index0 (v : json) : Outcome json :=
  match v with
  | JArr (x :: _) => Ok x
  | JArr [] => Raised IndexError
  | JStr (String c _) => Ok (JStr (String c EmptyString))
  | JStr EmptyString => Raised IndexError
  | JObj _ => Raised KeyError
  | _ => Raised TypeError
  end.

(** Python truthiness of a decoded value. *)
Definition truthy (v : json) : bool :=
  match v with
  | JNull => false
  | JBool b => b
  | JNum q => negb (Qeq_bool q 0)
  | JStr s => negb (String.eqb s EmptyString)
  | JArr l => match l with [] => false | _ => true end
  | JObj kvs => match kvs with [] => false | _ => true end
  end.

(** A decoded value used in arithmetic ([bool] is a subclass of [int]). *)
Definition num (v : json) : Outcome Q :=
  match v with
  | JNum q => Ok q
  | JBool true => Ok 1%Q
  | JBool false => Ok 0%Q
  | _ => Raised TypeError
  end.
End Json.

(* ------------------------------------------------------------------ *)
(** ** Configuration ([kalshi_alpha_suite/config.py], the fields the engine reads) *)

Module Config.
Record SuiteConfig := mkConfig {
  paper_trading : bool;
  kalshi_fee_rate : Q;
  spread_threshold_cents : Z;
  kelly_edge_min : Q;
  nlp_prob_shift_min : Q;
  max_position_usd : Q;
  kelly_fraction : Q
}.

(** The defaults of the configuration module. *)
Definition default : SuiteConfig :=
  mkConfig true (7 # 100) 3 (5 # 100) (10 # 100) 500 (25 # 100).
End Config.

(* ------------------------------------------------------------------ *)
(** ** Domain models ([kalshi_alpha_suite/models.py]) *)

Module Models.
Inductive Side := YES | NO.
Inductive SignalSource := ORDERBOOK | NLP | ARBITRAGE.

(** The human-readable rationale, kept as the values it is formatted from. *)
Inductive Rationale :=
| RVoid (spread yes_bid synth_ask : Q)
| RArb (kalshi_prob ext_prob f_star : Q)
| RNlp (feed_name : string) (llm_rationale : json)
| RText (s : string).

Record Signal := mkSignal {
  source : SignalSource;
  ticker : json;
  side : Side;
  implied_prob : Q;
  estimated_fair_prob : Q;
  edge : Q;
  confidence : Q;
  rationale : Rationale
}.

Record KellyResult := mkKelly {
  optimal_fraction : Q;
  position_size_usd : Q;
  net_ev : Q;
  should_trade : bool
}.
End Models.

Module Snapshot.
Record OrderbookSnapshot := mkSnapshot {
  ticker : json;
  best_yes_bid : Q;
  best_no_bid : Q;
  synthetic_yes_ask : Q;
  spread_cents : Q
}.

(** [OrderbookSnapshot.has_liquidity_void]: [spread_cents > 0] (the
    threshold is applied by the scanner). *)
Definition has_liquidity_void (s : OrderbookSnapshot) : bool :=
  Py.ltb 0 (spread_cents s).
End Snapshot.

Module Order.
Import Models.
Record TradeOrder := mkOrder {
  ticker : json;
  side : Side;
  contracts : Z;
  limit_price_cents : Z;
  signal : Signal;
  kelly : KellyResult;
  paper : bool;
  order_id : option json;
  fill_price_cents : option Z
}.
End Order.

(* ------------------------------------------------------------------ *)
(** ** The world the engine acts on: trade journal, outbound requests, sleeps *)

Module World.
Import Models.

(** One line of [paper_trades.jsonl] (the dict passed to [json.dumps]). *)
Record JournalRecord := mkRecord {
  r_ticker : json;
  r_side : Side;
  r_contracts : Z;
  r_limit_price_cents : Z;
  r_fill_price_cents : Z;
  r_kelly_f_star : Q;
  r_position_usd : Q;
  r_net_ev : Q;
  r_source : SignalSource;
  r_rationale : Rationale;
  r_paper : bool
}.

(** An outbound HTTP request: method, path and JSON body. *)
Record HttpRequest := mkRequest {
  method : string;
  path : string;
  body : json
}.

Record World := mkWorld {
  journal : list JournalRecord;
  requests : list HttpRequest;
  sleeps : list Z
}.

Definition empty : World := mkWorld [] [] [].

Definition append_journal (r : JournalRecord) (w : World) : World :=
  mkWorld (journal w ++ [r]) (requests w) (sleeps w).
Definition send (rq : HttpRequest) (w : World) : World :=
  mkWorld (journal w) (requests w ++ [rq]) (sleeps w).
Definition sleep (secs : Z) (w : World) : World :=
  mkWorld (journal w) (requests w) (sleeps w ++ [secs]).

Definition is_order_post (rq : HttpRequest) : bool :=
  String.eqb (method rq) "POST" && String.eqb (path rq) "/portfolio/orders".
End World.

(* ------------------------------------------------------------------ *)
(** ** Risk & Execution ([agents/risk_execution_agent.py]) *)

Module RiskExecutionAgent.
Import Order World Models.
Local Open Scope Q_scope.

(** [kelly_fraction(p, b)] *)
Definition kelly_fraction (p b : Q) : Q :=
  if Qle_bool b 0 then 0 else (p * (b + 1) - 1) / b.

(** [net_payout_after_fees(gross_b, fee_rate)] *)
Definition net_payout_after_fees (gross_b fee_rate : Q) : Q :=
  gross_b * (1 - fee_rate).

(** Lines 72-77 of [size]: [(p, market_price)] from the signal's side. *)
Definition side_prob_price (s : Signal) : Q * Q :=
  match side s with
  | YES => (estimated_fair_prob s, implied_prob s)
  | NO => (1 - estimated_fair_prob s, 1 - implied_prob s)
  end.

(** [gross_b = (1 / market_price) - 1] *)
Definition gross_b (market_price : Q) : Q := 1 / market_price - 1.

(** [RiskExecutionAgent.size] *)
Definition size (cfg : Config.SuiteConfig) (s : Signal) (bankroll_usd : Q)
    : KellyResult :=
  let '(p, market_price) := side_prob_price s in
  if Qle_bool market_price 0 || Qle_bool 1 market_price then
    mkKelly 0 0 0 false
  else
    let b := net_payout_after_fees (gross_b market_price) (Config.kalshi_fee_rate cfg) in
    let f_star := kelly_fraction p b in
    let f_used := Py.max 0 (f_star * Config.kelly_fraction cfg) in
    let position_usd := Py.min (f_used * bankroll_usd) (Config.max_position_usd cfg) in
    let net_ev := p * b - (1 - p) in
    let should_trade :=
      Py.ltb (Config.kelly_edge_min cfg) f_star
      && Py.ltb 0 net_ev
      && Py.ltb 0 position_usd in
    mkKelly f_star (Py.round position_usd 2) (Py.round net_ev 4) should_trade.

(** Lines 123-126 of [build_order]: the limit price in cents. *)
Definition price_cents_of (s : Signal) : Z :=
  let price_cents := Py.int (implied_prob s * 100) in
  let price_cents := match side s with NO => (100 - price_cents)%Z | YES => price_cents end in
  Z.max 1 (Z.min 99 price_cents).

(** [RiskExecutionAgent.build_order] *)
Definition build_order (cfg : Config.SuiteConfig) (s : Signal) (kelly : KellyResult)
    : option TradeOrder :=
  if negb (should_trade kelly) then None
  else
    let price_cents := price_cents_of s in
    let contracts :=
      Z.max 1 (Py.int (position_size_usd kelly * 100 / inject_Z price_cents)) in
    Some (mkOrder (Models.ticker s) (side s) contracts price_cents s kelly
                  (Config.paper_trading cfg) None None).

(** [RiskExecutionAgent._paper_execute] *)
Definition paper_execute (order : TradeOrder) (w : World) : TradeOrder * World :=
  let order := mkOrder (Order.ticker order) (Order.side order) (contracts order)
                 (limit_price_cents order) (signal order) (kelly order)
                 (paper order) (order_id order) (Some (limit_price_cents order)) in
  let record :=
    mkRecord (Order.ticker order) (Order.side order) (contracts order)
      (limit_price_cents order) (limit_price_cents order)
      (Py.round (optimal_fraction (kelly order)) 4)
      (position_size_usd (kelly order)) (net_ev (kelly order))
      (source (signal order)) (rationale (signal order)) true in
  (order, append_journal record w).

(** The body built by [KalshiClient.place_order] for [_live_execute]. *)
Definition place_order_body (order : TradeOrder) : json :=
  let price_key := match Order.side order with YES => "yes_price"%string | NO => "no_price"%string end in
  JObj [("ticker", Order.ticker order);
        ("action", JStr "buy");
        ("side", JStr (match Order.side order with YES => "yes" | NO => "no" end));
        ("type", JStr "limit");
        ("count", JNum (inject_Z (contracts order)));
        (price_key, JNum (inject_Z (limit_price_cents order)))]%string.

(** The POST of [KalshiClient.place_order] for [_live_execute]. *)
Definition place_order_request (order : TradeOrder) : HttpRequest :=
  mkRequest "POST"%string "/portfolio/orders"%string (place_order_body order).

(** [RiskExecutionAgent._live_execute].  [auth] is the outcome of the
    client's [_ensure_auth()] and [sign_request], which [_request] runs before
    sending: [KalshiAuth.from_config] raises [ValueError] when no key is
    configured and [TypeError] when the key is not Ed25519; a key that loads
    is cached, so the outcome is the same for every submission of a client.
    When it raises, nothing is sent.  Otherwise the POST is sent and
    [exchange] is the outcome the exchange (and the client's [_request])
    answers with.  Any exception is logged and the order is returned
    unsubmitted. *)
Definition live_execute (auth : Outcome unit) (exchange : Outcome json) (order : TradeOrder)
    (w : World) : TradeOrder * World :=
  match auth with
  | Raised _ => (order, w)
  | Ok _ =>
      let w := send (place_order_request order) w in
      let oid :=
        (resp <- exchange ;;
         o <- Json.get resp "order"%string (JObj []) ;;
         Json.get o "order_id"%string JNull) in
      match oid with
      | Ok v =>
          (mkOrder (Order.ticker order) (Order.side order) (contracts order)
             (limit_price_cents order) (signal order) (kelly order) (paper order)
             (Some v) (fill_price_cents order), w)
      | Raised _ => (order, w)
      end
  end.

(** [RiskExecutionAgent.execute] *)
Definition execute (auth : Outcome unit) (exchange : Outcome json) (order : TradeOrder)
    (w : World) : TradeOrder * World :=
  if paper order then paper_execute order w else live_execute auth exchange order w.

(** [RiskExecutionAgent.process_signals]; [auth] is the client's signing
    outcome (see [live_execute]) and [exchange] answers the i-th live
    submission of the batch. *)
Fixpoint process_signals_from (cfg : Config.SuiteConfig) (auth : Outcome unit)
    (exchange : nat -> Outcome json)
    (i : nat) (signals : list Signal) (bankroll_usd : Q) (w : World)
    : list TradeOrder * World :=
  match signals with
  | [] => ([], w)
  | sig :: rest =>
      let kelly := size cfg sig bankroll_usd in
      match build_order cfg sig kelly with
      | None => process_signals_from cfg auth exchange i rest bankroll_usd w
      | Some order =>
          let '(order, w) := execute auth (exchange i) order w in
          let '(orders, w) := process_signals_from cfg auth exchange (S i) rest bankroll_usd w in
          (order :: orders, w)
      end
  end.

Definition process_signals cfg auth exchange signals bankroll_usd w :=
  process_signals_from cfg auth exchange 0 signals bankroll_usd w.
End RiskExecutionAgent.

(* ------------------------------------------------------------------ *)
(** ** ASCII text helpers: whitespace splitting, case folding, number parsing *)

Module Str.
Definition code (c : ascii) : nat := nat_of_ascii c.

(** Python's [str.isspace] on ASCII: \t \n \v \f \r, \x1c-\x1f and space. *)
Definition is_space (c : ascii) : bool :=
  let n := code c in
  ((9 <=? n) && (n <=? 13))%nat || ((28 <=? n) && (n <=? 32))%nat.

Definition lower_char (c : ascii) : ascii :=
  let n := code c in
  if ((65 <=? n) && (n <=? 90))%nat then ascii_of_nat (n + 32) else c.

Definition lower (s : string) : string :=
  string_of_list_ascii (map lower_char (list_ascii_of_string s)).

(** [needle in haystack] on strings. *)
Fixpoint contains (needle haystack : string) : bool :=
  String.prefix needle haystack ||
  match haystack with
  | EmptyString => false
  | String _ rest => contains needle rest
  end.

(** [str.split()] with no separator: maximal runs of non-whitespace. *)
Fixpoint split_ws_aux (l : list ascii) (cur : list ascii) : list (list ascii) :=
  match l with
  | [] => match cur with [] => [] | _ => [rev cur] end
  | c :: rest =>
      if is_space c then
        match cur with
        | [] => split_ws_aux rest []
        | _ => rev cur :: split_ws_aux rest []
        end
      else split_ws_aux rest (c :: cur)
  end.

Definition split_ws (s : string) : list string :=
  map string_of_list_ascii (split_ws_aux (list_ascii_of_string s) []).

Definition in_chars (chars : list ascii) (c : ascii) : bool :=
  existsb (fun d => Ascii.eqb c d) chars.

Fixpoint lstrip_chars (chars : list ascii) (l : list ascii) : list ascii :=
  match l with
  | c :: rest => if in_chars chars c then lstrip_chars chars rest else l
  | [] => []
  end.

(** [s.strip(chars)] *)
Definition strip_chars (chars : string) (s : string) : string :=
  let cs := list_ascii_of_string chars in
  string_of_list_ascii
    (rev (lstrip_chars cs (rev (lstrip_chars cs (list_ascii_of_string s))))).

Definition digit (c : ascii) : option Z :=
  let n := code c in
  if ((48 <=? n) && (n <=? 57))%nat then Some (Z.of_nat (n - 48)) else None.

(** A run of decimal digits: its value, its length and the rest. *)
Fixpoint digits (l : list ascii) (acc : Z) (k : nat) : Z * nat * list ascii :=
  match l with
  | c :: rest =>
      match digit c with
      | Some d => digits rest (10 * acc + d) (S k)
      | None => (acc, k, l)
      end
  | [] => (acc, k, l)
  end.

Definition scale10 (q : Q) (e : Z) : Q :=
  if (0 <=? e)%Z then (q * inject_Z (10 ^ e))%Q else (q / inject_Z (10 ^ (- e)))%Q.

Definition char_is (c : ascii) (n : nat) : bool := Nat.eqb (code c) n.

(** Optional exponent part [e[+-]digits]; [None] when malformed. *)
Definition exponent (l : list ascii) : option (Z * list ascii) :=
  match l with
  | c :: rest =>
      if char_is c 101 || char_is c 69 then
        let '(neg, rest) :=
          match rest with
          | d :: r => if char_is d 45 then (true, r)
                      else if char_is d 43 then (false, r) else (false, rest)
          | [] => (false, rest)
          end in
        let '(v, k, rest) := digits rest 0 0 in
        if Nat.eqb k 0 then None else Some (if neg then (- v)%Z else v, rest)
      else Some (0%Z, l)
  | [] => Some (0%Z, l)
  end.

(** A decimal number at the head of [l].  With [strict] the JSON grammar
    (no [+], no leading zeros, digits on both sides of the point); without
    it the grammar of Python's [float()] on finite decimals. *)
Definition number (strict : bool) (l : list ascii) : option (Q * list ascii) :=
  let '(neg, l) :=
    match l with
    | c :: r => if char_is c 45 then (true, r)
                else if (negb strict) && char_is c 43 then (false, r) else (false, l)
    | [] => (false, l)
    end in
  let leading_zero := match l with c :: _ => char_is c 48 | [] => false end in
  let '(ip, ik, l) := digits l 0 0 in
  let '(fp, fk, has_point, l) :=
    match l with
    | c :: r =>
        if char_is c 46 then let '(v, k, r') := digits r 0 0 in (v, k, true, r')
        else (0%Z, 0%nat, false, l)
    | [] => (0%Z, 0%nat, false, l)
    end in
  let ok :=
    if strict then
      negb (Nat.eqb ik 0) && negb (leading_zero && Nat.ltb 1 ik)
      && (negb has_point || negb (Nat.eqb fk 0))
    else negb (Nat.eqb (ik + fk) 0) in
  if negb ok then None
  else
    match exponent l with
    | None => None
    | Some (e, l) =>
        let mant := (inject_Z ip + inject_Z fp / inject_Z (10 ^ Z.of_nat fk))%Q in
        let v := scale10 mant e in
        Some (if neg then (- v)%Q else v, l)
    end.

Fixpoint drop_spaces (l : list ascii) : list ascii :=
  match l with
  | c :: r => if is_space c then drop_spaces r else l
  | [] => []
  end.

Definition is_digit (c : ascii) : bool :=
  match digit c with Some _ => true | None => false end.

(** The underscores that [int()] and [float()] accept (PEP 515): one
    underscore between two digits is dropped; any other underscore stays
    and makes the parse fail. *)
Fixpoint strip_underscores (prev_digit : bool) (l : list ascii) : list ascii :=
  match l with
  | c :: rest =>
      if char_is c 95 && prev_digit
         && (match rest with d :: _ => is_digit d | [] => false end)
      then strip_underscores false rest
      else c :: strip_underscores (is_digit c) rest
  | [] => []
  end.

(** [float(s)] on a string whose value is finite.  Python floats are
    modelled as rationals, which have no NaN and no infinity: the
    spellings [nan], [inf] and [infinity] (any case, signed), which
    [float()] accepts, and decimals too large for a double (which it
    turns into [inf]), are outside the model; the first are rejected
    with [ValueError] here, and statements that read parsed numbers are
    about inputs whose numbers are finite. *)
Definition py_float_of_string (s : string) : Outcome Q :=
  match number false (strip_underscores false (drop_spaces (list_ascii_of_string s))) with
  | Some (q, rest) => if (match drop_spaces rest with [] => true | _ => false end)
                      then Ok q else Raised ValueError
  | None => Raised ValueError
  end.

(** [int(s)] on a string: optional sign and decimal digits, surrounded by
    whitespace. *)
Definition py_int_of_string (s : string) : Outcome Z :=
  let l := strip_underscores false (drop_spaces (list_ascii_of_string s)) in
  let '(neg, l) :=
    match l with
    | c :: r => if char_is c 45 then (true, r) else if char_is c 43 then (false, r) else (false, l)
    | [] => (false, l)
    end in
  let '(v, k, rest) := digits l 0 0 in
  if Nat.eqb k 0 then Raised ValueError
  else match drop_spaces rest with
       | [] => Ok (if neg then (- v)%Z else v)
       | _ => Raised ValueError
       end.
End Str.

Module PyJson.
(** [float(v)] on a decoded JSON value. *)
Definition float (v : json) : Outcome Q :=
  match v with
  | JNum q => Ok q
  | JBool true => Ok 1%Q
  | JBool false => Ok 0%Q
  | JStr s => Str.py_float_of_string s
  | JNull | JArr _ | JObj _ => Raised TypeError
  end.

Fixpoint dedup (l : list string) : list string :=
  match l with
  | [] => []
  | x :: r => if existsb (String.eqb x) r then dedup r else x :: dedup r
  end.

Fixpoint keys_in_order (seen : list string) (kvs : list (string * json)) : list string :=
  match kvs with
  | [] => []
  | (k, _) :: r =>
      if existsb (String.eqb k) seen then keys_in_order seen r
      else k :: keys_in_order (k :: seen) r
  end.

(** [for x in v]: a list yields its items, a dict its keys, a string its
    characters. *)
Definition iter (v : json) : Outcome (list json) :=
  match v with
  | JArr l => Ok l
  | JObj kvs => Ok (map JStr (keys_in_order [] kvs))
  | JStr s => Ok (map (fun c => JStr (String c EmptyString)) (list_ascii_of_string s))
  | _ => Raised TypeError
  end.
End PyJson.

(* ------------------------------------------------------------------ *)
(** ** Arbitrage scanner ([agents/arbitrage_agent.py]) *)

Module ArbitrageAgent.
Import Models.
Local Open Scope string_scope.
Local Open Scope Q_scope.

(** [kelly_criterion(p, b)] *)
Definition kelly_criterion (p b : Q) : Q :=
  if Qle_bool b 0 then 0 else (p * (b + 1) - 1) / b.

(** [_tokens(title)]: lower-cased words longer than 3 characters, stripped
    of [?.!,], as a set. *)
Definition tokens (title : json) : Outcome (list string) :=
  match title with
  | JStr t =>
      Ok (PyJson.dedup
            (map (fun w => Str.strip_chars "?.!," (Str.lower w))
                 (filter (fun w => Nat.ltb 3 (String.length w)) (Str.split_ws t))))
  | _ => Raised AttributeError
  end.

Definition overlap_size (kt et : list string) : nat :=
  List.length (filter (fun w => existsb (String.eqb w) et) kt).

(** The inner loop of [_match_markets]: the first external market sharing
    at least three tokens. *)
Fixpoint first_match (kt : list string) (ems : list json) : Outcome (option json) :=
  match ems with
  | [] => Ok None
  | em :: rest =>
      (t <- Json.get em "title" (JStr EmptyString) ;;
       q <- Json.get em "question" t ;;
       et <- tokens q ;;
       if Nat.leb 3 (overlap_size kt et) then Ok (Some em) else first_match kt rest)
  end.

(** [ArbitrageAgent._match_markets] *)
Fixpoint match_markets (kms : list json) (ext_markets : json)
    : Outcome (list (json * json)) :=
  match kms with
  | [] => Ok []
  | km :: rest =>
      (title <- Json.get km "title" (JStr EmptyString) ;;
       kt <- tokens title ;;
       m <- (match kt with
             | [] => Ok None
             | _ => ems <- PyJson.iter ext_markets ;; first_match kt ems
             end) ;;
       pairs <- match_markets rest ext_markets ;;
       Ok (match m with Some em => (km, em) :: pairs | None => pairs end))
  end.

(** One iteration of the loop of [scan] over matched pairs: [Ok None] is a
    [continue]. *)
Definition scan_pair (cfg : Config.SuiteConfig) (km em : json) : Outcome (option Signal) :=
  ticker <- Json.getitem km "ticker" ;;
  yp <- Json.get km "yes_price" (JNum 0) ;;
  kp <- (if Json.truthy yp then Ok yp else Json.get km "last_price" (JNum 50)) ;;
  kp <- Json.num kp ;;
  let kalshi_prob := kp / 100 in
  ops <- Json.get em "outcomePrices" (JArr [JNull; JNull]) ;;
  first <- Json.index0 ops ;;
  ext_raw <- (if Json.truthy first then Ok first
              else (ltp <- Json.get em "lastTradePrice" (JNum (1 # 2)) ;;
                    Json.get em "yes_price" ltp)) ;;
  match PyJson.float ext_raw with
  | Raised TypeError | Raised ValueError => Ok None
  | Raised e => Raised e
  | Ok ext_prob =>
      let edge := ext_prob - kalshi_prob in
      let decision :=
        if Py.ltb 0 edge then Some (YES, ext_prob, kalshi_prob, edge)
        else if Py.ltb edge 0 then Some (NO, 1 - ext_prob, 1 - kalshi_prob, Qabs edge)
        else None in
      match decision with
      | None => Ok None
      | Some (side, p, market_price, edge) =>
          if Qle_bool market_price 0 || Qle_bool 1 market_price then Ok None
          else
            let b := 1 / market_price - 1 in
            let f_star := kelly_criterion p b in
            if Py.ltb f_star (Config.kelly_edge_min cfg) then Ok None
            else
              Ok (Some (mkSignal ARBITRAGE ticker side kalshi_prob
                          (match side with YES => ext_prob | NO => 1 - ext_prob end)
                          edge (Py.min f_star 1)
                          (RArb kalshi_prob ext_prob f_star)))
      end
  end.

Fixpoint scan_pairs (cfg : Config.SuiteConfig) (pairs : list (json * json))
    : Outcome (list Signal) :=
  match pairs with
  | [] => Ok []
  | (km, em) :: rest =>
      s <- scan_pair cfg km em ;;
      ss <- scan_pairs cfg rest ;;
      Ok (match s with Some sg => sg :: ss | None => ss end)
  end.

(** [ArbitrageAgent.scan]: [kalshi_resp] is the answer to
    [get_markets(status="open", limit=200)], [ext_markets] the value
    returned by [_fetch_polymarket_markets] (which never raises). *)
Definition scan (cfg : Config.SuiteConfig) (kalshi_resp : Outcome json) (ext_markets : json)
    : Outcome (list Signal) :=
  resp <- kalshi_resp ;;
  kms <- Json.get resp "markets" (JArr []) ;;
  if negb (Json.truthy ext_markets) then Ok []
  else
    kms <- PyJson.iter kms ;;
    pairs <- match_markets kms ext_markets ;;
    scan_pairs cfg pairs.
End ArbitrageAgent.

(* ------------------------------------------------------------------ *)
(** ** Orderbook scanner ([agents/orderbook_agent.py]) *)

Module OrderbookAgent.
Import Models Snapshot.
Local Open Scope string_scope.
Local Open Scope Q_scope.

(** [yes_bids[0][0] if yes_bids else 0] *)
Definition best_bid (bids : json) : Outcome json :=
  if Json.truthy bids then (top <- Json.index0 bids ;; Json.index0 top) else Ok (JNum 0).

(** [_parse_orderbook(ticker, raw)] *)
Definition parse_orderbook (tk : json) (raw : json) : Outcome (option OrderbookSnapshot) :=
  ob <- Json.get raw "orderbook" raw ;;
  yes_bids <- Json.get ob "yes" (JArr []) ;;
  no_bids <- Json.get ob "no" (JArr []) ;;
  if negb (Json.truthy yes_bids) && negb (Json.truthy no_bids) then Ok None
  else
    best_yes_bid <- best_bid yes_bids ;;
    best_no_bid <- best_bid no_bids ;;
    nb <- Json.num best_no_bid ;;
    let synthetic_yes_ask := if Py.ltb 0 nb then 100 - nb else 100 in
    yb <- Json.num best_yes_bid ;;
    let spread := synthetic_yes_ask - yb in
    Ok (Some (mkSnapshot tk yb nb synthetic_yes_ask spread)).

(** [OrderbookAgent.scan_market]: [fetched] is the outcome of
    [client.get_orderbook(ticker)]; a failed fetch is logged and skipped,
    a parse error propagates. *)
Definition scan_market (cfg : Config.SuiteConfig) (tk : json) (fetched : Outcome json)
    : Outcome (option Signal) :=
  match fetched with
  | Raised _ => Ok None
  | Ok raw =>
      snap <- parse_orderbook tk raw ;;
      match snap with
      | None => Ok None
      | Some snap =>
          if Qle_bool (spread_cents snap) (inject_Z (Config.spread_threshold_cents cfg))
          then Ok None
          else
            let midpoint := (best_yes_bid snap + synthetic_yes_ask snap) / 2 / 100 in
            let implied := if negb (Qeq_bool (best_yes_bid snap) 0)
                           then best_yes_bid snap / 100 else 1 # 2 in
            Ok (Some (mkSignal ORDERBOOK tk YES implied midpoint (midpoint - implied)
                        (Py.min (spread_cents snap / 10) 1)
                        (RVoid (spread_cents snap) (best_yes_bid snap)
                               (synthetic_yes_ask snap))))
      end
  end.

(** Signals kept from [asyncio.gather(..., return_exceptions=True)]. *)
Fixpoint collect (results : list (Outcome (option Signal))) : list Signal :=
  match results with
  | [] => []
  | Ok (Some s) :: rest => s :: collect rest
  | _ :: rest => collect rest
  end.

Fixpoint map_outcome {A B} (f : A -> Outcome B) (l : list A) : Outcome (list B) :=
  match l with
  | [] => Ok []
  | x :: r => y <- f x ;; ys <- map_outcome f r ;; Ok (y :: ys)
  end.

(** The pagination loop of [scan_all_open_markets]; [get_markets cursor
    batch_size] and [get_orderbook ticker] are the client's answers. *)
Fixpoint scan_loop (cfg : Config.SuiteConfig) (get_markets : json -> Z -> Outcome json)
    (get_orderbook : json -> Outcome json) (limit : Z)
    (fuel : nat) (cursor : json) (fetched : Z) (signals : list Signal)
    : Outcome (list Signal) :=
  match fuel with
  | O => Ok signals
  | S fuel =>
      if (fetched <? limit)%Z then
        let batch_size := Z.min 100 (limit - fetched) in
        resp <- get_markets cursor batch_size ;;
        markets <- Json.get resp "markets" (JArr []) ;;
        if negb (Json.truthy markets) then Ok signals
        else
          ms <- PyJson.iter markets ;;
          tickers <- map_outcome (fun m => Json.getitem m "ticker") ms ;;
          let results := map (fun t => scan_market cfg t (get_orderbook t)) tickers in
          let signals := (signals ++ collect results)%list in
          cursor <- Json.get resp "cursor" JNull ;;
          let fetched := (fetched + Z.of_nat (List.length ms))%Z in
          if negb (Json.truthy cursor) then Ok signals
          else scan_loop cfg get_markets get_orderbook limit fuel cursor fetched signals
      else Ok signals
  end.

(** [OrderbookAgent.scan_all_open_markets(limit=200)]: every round fetches
    at least one market, so [limit] rounds suffice. *)
Definition scan_all_open_markets (cfg : Config.SuiteConfig)
    (get_markets : json -> Z -> Outcome json) (get_orderbook : json -> Outcome json)
    (limit : Z) : Outcome (list Signal) :=
  scan_loop cfg get_markets get_orderbook limit (S (Z.to_nat limit)) JNull 0 [].
End OrderbookAgent.

(* ------------------------------------------------------------------ *)
(** ** [json.loads] on finite JSON texts (escapes other than [\u]) *)

Module JsonDecode.
Import Str.

Definition is_ws (c : ascii) : bool :=
  char_is c 32 || char_is c 9 || char_is c 10 || char_is c 13.

Fixpoint skip (l : list ascii) : list ascii :=
  match l with
  | c :: r => if is_ws c then skip r else l
  | [] => []
  end.

Fixpoint prefix (p l : list ascii) : option (list ascii) :=
  match p, l with
  | [], _ => Some l
  | a :: p', b :: l' => if Ascii.eqb a b then prefix p' l' else None
  | _ :: _, [] => None
  end.

Definition unescape (e : ascii) : option ascii :=
  if char_is e 34 || char_is e 92 || char_is e 47 then Some e
  else if char_is e 98 then Some (ascii_of_nat 8)
  else if char_is e 102 then Some (ascii_of_nat 12)
  else if char_is e 110 then Some (ascii_of_nat 10)
  else if char_is e 114 then Some (ascii_of_nat 13)
  else if char_is e 116 then Some (ascii_of_nat 9)
  else None.

(** The characters of a string literal after its opening quote. *)
Fixpoint str_chars (l : list ascii) (acc : list ascii) : option (string * list ascii) :=
  match l with
  | [] => None
  | c :: r =>
      if char_is c 34 then Some (string_of_list_ascii (rev acc), r)
      else if char_is c 92 then
        match r with
        | e :: r' => match unescape e with
                     | Some d => str_chars r' (d :: acc)
                     | None => None
                     end
        | [] => None
        end
      else if Nat.ltb (code c) 32 then None
      else str_chars r (c :: acc)
  end.

Fixpoint value (fuel : nat) (l : list ascii) : option (json * list ascii) :=
  match fuel with
  | O => None
  | S f =>
      match l with
      | [] => None
      | c :: r =>
          if char_is c 123 then
            match skip r with
            | d :: r' => if char_is d 125 then Some (JObj [], r')
                         else match members f (d :: r') with
                              | Some (kvs, r'') => Some (JObj kvs, r'')
                              | None => None
                              end
            | [] => None
            end
          else if char_is c 91 then
            match skip r with
            | d :: r' => if char_is d 93 then Some (JArr [], r')
                         else match elements f (d :: r') with
                              | Some (vs, r'') => Some (JArr vs, r'')
                              | None => None
                              end
            | [] => None
            end
          else if char_is c 34 then
            match str_chars r [] with
            | Some (s, r') => Some (JStr s, r')
            | None => None
            end
          else match prefix (list_ascii_of_string "true") l with
          | Some r' => Some (JBool true, r')
          | None =>
          match prefix (list_ascii_of_string "false") l with
          | Some r' => Some (JBool false, r')
          | None =>
          match prefix (list_ascii_of_string "null") l with
          | Some r' => Some (JNull, r')
          | None =>
          match number true l with
          | Some (q, r') => Some (JNum q, r')
          | None => None
          end end end end
      end
  end
with elements (fuel : nat) (l : list ascii) : option (list json * list ascii) :=
  match fuel with
  | O => None
  | S f =>
      match value f (skip l) with
      | None => None
      | Some (v, r) =>
          match skip r with
          | c :: r' =>
              if char_is c 44 then
                match elements f r' with
                | Some (vs, r'') => Some (v :: vs, r'')
                | None => None
                end
              else if char_is c 93 then Some ([v], r')
              else None
          | [] => None
          end
      end
  end
with members (fuel : nat) (l : list ascii) : option (list (string * json) * list ascii) :=
  match fuel with
  | O => None
  | S f =>
      match skip l with
      | q :: r =>
          if negb (char_is q 34) then None
          else
            match str_chars r [] with
            | None => None
            | Some (k, r) =>
                match skip r with
                | colon :: r =>
                    if negb (char_is colon 58) then None
                    else
                      match value f (skip r) with
                      | None => None
                      | Some (v, r) =>
                          match skip r with
                          | c :: r' =>
                              if char_is c 44 then
                                match members f r' with
                                | Some (kvs, r'') => Some ((k, v) :: kvs, r'')
                                | None => None
                                end
                              else if char_is c 125 then Some ([(k, v)], r')
                              else None
                          | [] => None
                          end
                      end
                | [] => None
                end
            end
      | [] => None
      end
  end.

(** [json.loads(s)] on texts of ASCII characters.  It rejects with
    [JSONDecodeError] the [\u] escapes and the [NaN], [Infinity] and
    [-Infinity] literals, which Python's decoder accepts; the news analyzer
    takes the decoder as a parameter, and this one is used only on the
    concrete answers below. *)
Definition loads (s : string) : Outcome json :=
  let l := list_ascii_of_string s in
  match value (2 * List.length l + 2) (skip l) with
  | Some (v, r) => match skip r with [] => Ok v | _ => Raised JSONDecodeError end
  | None => Raised JSONDecodeError
  end.

(** Text with single quotes standing for double quotes, for writing JSON
    literals inside Rocq strings. *)
Definition dq (s : string) : string :=
  string_of_list_ascii
    (map (fun c => if char_is c 39 then ascii_of_nat 34 else c) (list_ascii_of_string s)).
End JsonDecode.

(* ------------------------------------------------------------------ *)
(** ** News analyzer ([agents/nlp_agent.py]) *)

Inductive LogLevel := DEBUG | INFO | WARNING | ERROR.

Module NLPAgent.
Local Open Scope string_scope.
Local Open Scope Q_scope.

Record NLPSignalRaw := mkRaw {
  ticker_keyword : json;
  side : json;
  prob_shift : Q;
  confidence : Q;
  rationale : json
}.

(** The body of the [try] in the loop of [analyze_headline]. *)
Definition parse_item (item : json) : Outcome NLPSignalRaw :=
  tk <- Json.getitem item "ticker_keyword" ;;
  sd <- Json.getitem item "side" ;;
  ps <- Json.getitem item "prob_shift" ;;
  ps <- PyJson.float ps ;;
  cf <- Json.getitem item "confidence" ;;
  cf <- PyJson.float cf ;;
  rat <- Json.get item "rationale" (JStr EmptyString) ;;
  Ok (mkRaw tk sd ps cf rat).

(** The loop of [analyze_headline]: [KeyError], [TypeError] and
    [ValueError] skip the item with a debug message.  An item whose
    [prob_shift] or [confidence] is a non-finite float ([float("nan")],
    [float("inf")]) is kept by the source but cannot be represented here
    (see [Str.py_float_of_string]): the model skips it, so the statements
    about the signals of [run] are about items whose numbers are finite. *)
Fixpoint parse_items (items : list json) : list NLPSignalRaw * list (LogLevel * string) :=
  match items with
  | [] => ([], [])
  | item :: rest =>
      let '(sigs, logs) := parse_items rest in
      match parse_item item with
      | Ok r => (r :: sigs, logs)
      | Raised _ => (sigs, (DEBUG, "Skipping malformed GPT item") :: logs)
      end
  end.

(** [resp.choices[0].message.content or "[]"] *)
Definition raw_text (content : option string) : string :=
  match content with
  | Some t => if String.eqb t EmptyString then "[]" else t
  | None => "[]"
  end.

(** [NLPAgent.analyze_headline]: [completion] is the outcome of the chat
    completion call ([Ok content] with [message.content]); [loads] is
    [json.loads]. *)
Definition analyze_headline (loads : string -> Outcome json)
    (completion : Outcome (option string))
    : Outcome (list NLPSignalRaw * list (LogLevel * string)) :=
  match completion with
  | Raised _ => Ok ([], [(ERROR, "OpenAI API call failed")])
  | Ok content =>
      match loads (raw_text content) with
      | Raised JSONDecodeError => Ok ([], [(WARNING, "GPT returned non-JSON")])
      | Raised e => Raised e
      | Ok parsed =>
          let items := match parsed with JArr l => l | v => [v] end in
          Ok (parse_items items)
      end
  end.

(** [text[:n]] *)
Definition take (n : nat) (s : string) : string := substring 0 n s.

(** [NLPAgent.fetch_all_feeds]: [fetched] pairs each feed name with the
    outcome of fetching its text; failures and empty texts are dropped. *)
Fixpoint fetch_all_feeds (fetched : list (string * Outcome string)) : list (string * string) :=
  match fetched with
  | [] => []
  | (name, Ok text) :: rest =>
      let text := take 6000 text in
      if String.eqb text EmptyString then fetch_all_feeds rest else (name, text) :: fetch_all_feeds rest
  | (name, Raised _) :: rest => fetch_all_feeds rest
  end.

(** [v.lower()] on a decoded value. *)
Definition py_lower (v : json) : Outcome string :=
  match v with
  | JStr t => Ok (Str.lower t)
  | _ => Raised AttributeError
  end.

(** The condition of the comprehension in [resolve_tickers]. *)
Definition ticker_matches (keyword m : json) : Outcome bool :=
  kw <- py_lower keyword ;;
  t <- Json.get m "ticker" (JStr EmptyString) ;;
  t <- py_lower t ;;
  if Str.contains kw t then Ok true
  else
    kw <- py_lower keyword ;;
    ti <- Json.get m "title" (JStr EmptyString) ;;
    ti <- py_lower ti ;;
    Ok (Str.contains kw ti).

(** [[m["ticker"] for m in markets if ...]] *)
Fixpoint matching_tickers (keyword : json) (ms : list json) : Outcome (list json) :=
  match ms with
  | [] => Ok []
  | m :: rest =>
      b <- ticker_matches keyword m ;;
      if b then
        t <- Json.getitem m "ticker" ;;
        ts <- matching_tickers keyword rest ;;
        Ok (t :: ts)
      else matching_tickers keyword rest
  end.

(** [NLPAgent.resolve_tickers(keyword, client)]: [resp] is the outcome of
    [get_markets(status="open", limit=50)]; any exception gives []. *)
Definition resolve_tickers (keyword : json) (resp : Outcome json) : list json :=
  match (r <- resp ;;
         markets <- Json.get r "markets" (JArr []) ;;
         ms <- PyJson.iter markets ;;
         matching_tickers keyword ms) with
  | Ok ts => ts
  | Raised _ => []
  end.

(** The signals emitted for one raw item ([resolve] answers
    [resolve_tickers(keyword)], which never raises). *)
Definition signals_of_raw (cfg : Config.SuiteConfig) (resolve : json -> list json)
    (feed_name : string) (raw : NLPSignalRaw) : list Models.Signal :=
  if Py.ltb (Qabs (prob_shift raw)) (Config.nlp_prob_shift_min cfg) then []
  else
    let tickers := resolve (ticker_keyword raw) in
    let sd := if Py.ltb 0 (prob_shift raw) then Models.YES else Models.NO in
    map (fun t => Models.mkSignal Models.NLP t sd (1 # 2) ((1 # 2) + prob_shift raw)
                    (Qabs (prob_shift raw)) (confidence raw)
                    (Models.RNlp feed_name (rationale raw)))
        tickers.

(** [NLPAgent.run]: [llm headline] is the completion for a headline. *)
Fixpoint run_feeds (cfg : Config.SuiteConfig) (loads : string -> Outcome json)
    (llm : string -> Outcome (option string)) (resolve : json -> list json)
    (feeds : list (string * string)) : Outcome (list Models.Signal) :=
  match feeds with
  | [] => Ok []
  | (feed_name, text) :: rest =>
      let headline := "[" ++ feed_name ++ "] " ++ take 500 text in
      res <- analyze_headline loads (llm headline) ;;
      let '(raw_signals, _) := res in
      let here := flat_map (signals_of_raw cfg resolve feed_name) raw_signals in
      later <- run_feeds cfg loads llm resolve rest ;;
      Ok (here ++ later)%list
  end.

Definition run cfg loads llm resolve (fetched : list (string * Outcome string)) :=
  run_feeds cfg loads llm resolve (fetch_all_feeds fetched).
End NLPAgent.

(* ------------------------------------------------------------------ *)
(** ** Orchestrator ([kalshi_alpha_suite/orchestrator.py]) *)

Module Orchestrator.
Import Models World.

(** [asyncio.gather(ob_task, nlp_task, arb_task, return_exceptions=False)]:
    an exception of any task is re-raised by the gather (when several
    tasks fail, the one re-raised is the first to fail; here the first in
    argument order). *)
Definition gather3 {A} (a b c : Outcome A) : Outcome (A * A * A) :=
  x <- a ;; y <- b ;; z <- c ;; Ok (x, y, z).

(** The result of a cycle: [None] when no signal was collected. *)
Definition CycleResult := option (list Order.TradeOrder).

(** [run_cycle]: the three producer outcomes, the signing outcome and the
    exchange's answers for live submissions, the bankroll, and the world.
    The producers run before [gather] returns, so their own requests (the
    [get_orderbook] and [get_markets] calls, the feeds, the chat
    completion) are part of their outcomes and are not recorded in the
    world, which records what the execution stage does. *)
Definition run_cycle (cfg : Config.SuiteConfig)
    (ob_task nlp_task arb_task : Outcome (list Signal))
    (auth : Outcome unit) (exchange : nat -> Outcome json) (bankroll_usd : Q) (w : World)
    : Outcome CycleResult * World :=
  match gather3 ob_task nlp_task arb_task with
  | Raised e => (Raised e, w)
  | Ok (ob_signals, nlp_signals, arb_signals) =>
      let all_signals := ob_signals ++ nlp_signals ++ arb_signals in
      match all_signals with
      | [] => (Ok None, w)
      | _ =>
          let '(orders, w) :=
            RiskExecutionAgent.process_signals cfg auth exchange all_signals bankroll_usd w in
          (Ok (Some orders), w)
      end
  end.
End Orchestrator.

(* ------------------------------------------------------------------ *)
(** ** Exchange gateways *)

(** An HTTP response as the clients read it. *)
Record Response := mkResponse {
  status_code : Z;
  retry_after : option string;   (* the Retry-After header *)
  json_body : Outcome json       (* resp.json() *)
}.

(** [src/kalshi_client/client.py], [KalshiClient._request]: [transport i] is
    the outcome of the [i]-th HTTP exchange ([session.request]). *)
Module KalshiClient.
Import World.

(** [wait = int(retry_after) if retry_after else 2] *)
Definition retry_wait (h : option string) : Outcome Z :=
  match h with
  | Some s => if String.eqb s EmptyString then Ok 2 else Str.py_int_of_string s
  | None => Ok 2
  end.

(** The checks after the retry branch of [_request].  For an error status
    the body is [resp.json()], or [{}] when that raises; [body.get] then
    raises [AttributeError] unless the body is a dict. *)
Definition finish (resp : Response) : Outcome json :=
  if (status_code resp =? 429)%Z then Raised KalshiRateLimitError
  else if (400 <=? status_code resp)%Z then
    match json_body resp with
    | Ok (JObj _) | Raised _ => Raised (KalshiAPIError (status_code resp))
    | Ok _ => Raised AttributeError
    end
  else if (status_code resp =? 204)%Z then Ok (JObj [])
  else json_body resp.

Fixpoint request_from (transport : nat -> Outcome Response) (attempt : nat)
    (rq : HttpRequest) (retries : nat) (w : World) : Outcome json * World :=
  let w := send rq w in
  match transport attempt with
  | Raised e => (Raised e, w)
  | Ok resp =>
      match retries with
      | S retries' =>
          if (status_code resp =? 429)%Z then
            match retry_wait (retry_after resp) with
            | Raised e => (Raised e, w)
            | Ok wait =>
                (* time.sleep rejects a negative length *)
                if (wait <? 0)%Z then (Raised ValueError, w)
                else request_from transport (S attempt) rq retries' (sleep wait w)
            end
          else (finish resp, w)
      | O => (finish resp, w)
      end
  end.

(** [_request(method, endpoint, ..., _retries=3)] *)
Definition request (transport : nat -> Outcome Response) (rq : HttpRequest)
    (retries : nat) (w : World) : Outcome json * World :=
  request_from transport 0 rq retries w.

Definition default_retries : nat := 3.

(** [_request] with its signing step: [self.auth.get_auth_headers] runs
    before every [session.request], and [sign] is its outcome.  With the
    client's fixed key it is the same at every call: an RSA key signs, and
    any other key makes [_sign] raise [KalshiAuthError].  So a failed
    signing raises before the first request, and with a key that signs the
    call is [request] above, whose recursive calls sign again
    successfully.  The methods below ([get_orderbook]) are modelled for a
    key that signs. *)
Definition request_signed (sign : Outcome unit) (transport : nat -> Outcome Response)
    (rq : HttpRequest) (retries : nat) (w : World) : Outcome json * World :=
  match sign with
  | Raised e => (Raised e, w)
  | Ok _ => request transport rq retries w
  end.

(** [OrderBook] of [kalshi_client/models.py] *)
Record OrderBook := mkOrderBook {
  ob_ticker : string;
  yes_bids : json;
  yes_asks : json;
  no_bids : json;
  no_asks : json
}.

(** [x or d] *)
Definition or_else (x d : json) : json := if Json.truthy x then x else d.

(** [OrderBook.from_api(ticker, data)] *)
Definition orderbook_from_api (tk : string) (data : json) : Outcome OrderBook :=
  yd <- Json.get data "yes" JNull ;;
  let yes_data := or_else yd (JObj []) in
  nd <- Json.get data "no" JNull ;;
  let no_data := or_else nd (JObj []) in
  yb <- Json.get yes_data "bids" JNull ;;
  ya <- Json.get yes_data "asks" JNull ;;
  nb <- Json.get no_data "bids" JNull ;;
  na <- Json.get no_data "asks" JNull ;;
  Ok (mkOrderBook tk (or_else yb (JArr [])) (or_else ya (JArr []))
                     (or_else nb (JArr [])) (or_else na (JArr []))).

(** [KalshiClient.get_orderbook(ticker)] (the [depth] query parameter is
    not part of the request model). *)
Definition get_orderbook (transport : nat -> Outcome Response) (tk : string) (w : World)
    : Outcome OrderBook * World :=
  let '(r, w) := request transport
                   (mkRequest "GET" ("/markets/" ++ tk ++ "/orderbook") JNull)
                   default_retries w in
  (data <- r ;;
   ob <- Json.get data "orderbook" JNull ;;
   orderbook_from_api tk (or_else ob data), w).

(** [Market] of [kalshi_client/models.py]; prices in dollars. *)
Record Market := mkMarket {
  m_ticker : json;
  m_event_ticker : json;
  m_title : json;
  m_status : json;
  m_yes_bid : Q;
  m_yes_ask : Q;
  m_no_bid : Q;
  m_no_ask : Q;
  m_volume : json;
  m_open_interest : json;
  m_last_price : Q;
  m_result : json;
  m_subtitle : json;
  m_close_time : json
}.

(** [data.get(k, 0) / 100 if data.get(k) else 0.0] *)
Definition cents_field (data : json) (k : string) : Outcome Q :=
  v <- Json.get data k JNull ;;
  if Json.truthy v then
    (c <- Json.get data k (JNum 0) ;; c <- Json.num c ;; Ok (c / 100)%Q)
  else Ok 0%Q.

(** [Market.from_api(data)] *)
Definition market_from_api (data : json) : Outcome Market :=
  tk <- Json.get data "ticker" (JStr EmptyString) ;;
  ev <- Json.get data "event_ticker" (JStr EmptyString) ;;
  ti <- Json.get data "title" (JStr EmptyString) ;;
  st <- Json.get data "status" (JStr EmptyString) ;;
  yb <- cents_field data "yes_bid" ;;
  ya <- cents_field data "yes_ask" ;;
  nb <- cents_field data "no_bid" ;;
  na <- cents_field data "no_ask" ;;
  vol <- Json.get data "volume" (JNum 0) ;;
  oi <- Json.get data "open_interest" (JNum 0) ;;
  lp <- cents_field data "last_price" ;;
  res <- Json.get data "result" (JStr EmptyString) ;;
  sub <- Json.get data "subtitle" (JStr EmptyString) ;;
  ct <- Json.get data "close_time" (JStr EmptyString) ;;
  Ok (mkMarket tk ev ti st yb ya nb na vol oi lp res sub ct).
End KalshiClient.

(** [src/kalshi_alpha_suite/kalshi_client.py], [KalshiClient._request]:
    [raise_for_status()] then [resp.json()]. *)
Module SuiteKalshiClient.
Import World.

(** [auth] is the outcome of [await self._ensure_auth()] and
    [auth.sign_request]: [KalshiAuth.from_config] raises [ValueError] when
    no key is configured and [TypeError] when the key is not Ed25519, and
    then nothing is sent. *)
Definition request (auth : Outcome unit) (transport : nat -> Outcome Response)
    (rq : HttpRequest) (w : World) : Outcome json * World :=
  match auth with
  | Raised e => (Raised e, w)
  | Ok _ =>
      let w := send rq w in
      match transport 0%nat with
      | Raised e => (Raised e, w)
      | Ok resp =>
          if (200 <=? status_code resp)%Z && (status_code resp <? 300)%Z
          then (json_body resp, w)
          else (Raised (HTTPStatusError (status_code resp)), w)
      end
  end.
End SuiteKalshiClient.

(* ------------------------------------------------------------------ *)
(** ** The signal invariant of the data model *)

Module Invariants.
Import Models.
Local Open Scope Q_scope.

(** YES: fair >= implied; NO: fair <= implied; edge = |fair - implied|. *)
Definition signal_invariant (s : Signal) : Prop :=
  (side s = YES -> implied_prob s <= estimated_fair_prob s) /\
  (side s = NO -> estimated_fair_prob s <= implied_prob s) /\
  edge s == Qabs (estimated_fair_prob s - implied_prob s).
End Invariants.

(* ------------------------------------------------------------------ *)
(** ** Concrete inputs *)

Module Fixtures.
Import Models.
Local Open Scope Q_scope.

(** fee 0, kelly_fraction 1.0, max $10,000 *)
Definition cfg_even : Config.SuiteConfig :=
  Config.mkConfig true 0 3 (5 # 100) (10 # 100) 10000 1.

(** YES, implied 0.5, fair 0.6 *)
Definition sig_even : Signal :=
  mkSignal ORDERBOOK (JStr "TEST-TICKER") YES (1 # 2) (3 # 5) (1 # 10) (8 # 10)
    (RText "test signal").

(** YES, implied 0.296 *)
Definition sig_296 : Signal :=
  mkSignal ORDERBOOK (JStr "TEST-TICKER") YES (296 # 1000) (3 # 5) (304 # 1000) (8 # 10)
    (RText "test signal").

(** YES bids [[40,100]], NO bids [[55,80]] *)
Definition book_void : json :=
  JObj [("orderbook",
         JObj [("yes", JArr [JArr [JNum 40; JNum 100]]);
               ("no", JArr [JArr [JNum 55; JNum 80]])])]%string.

(** YES side empty, NO bids [[50,10]] *)
Definition book_no_yes : json :=
  JObj [("orderbook",
         JObj [("yes", JArr []);
               ("no", JArr [JArr [JNum 50; JNum 10]])])]%string.

Definition arb_title : json := JStr "Will the Federal Reserve raise rates in June?".

(** A matched pair: exchange YES price 30, external YES probability 0.2. *)
Definition kalshi_market : json :=
  JObj [("ticker", JStr "FED-JUNE"); ("title", arb_title); ("yes_price", JNum 30)]%string.
Definition external_market : json :=
  JObj [("question", arb_title); ("outcomePrices", JArr [JStr "0.2"; JStr "0.8"])]%string.


Definition get_markets_request : World.HttpRequest :=
  World.mkRequest "GET" "/trade-api/v2/markets" JNull.

(** An LLM answer that is a single JSON object, not an array. *)
Definition llm_object_answer : string :=
  JsonDecode.dq
    "{'ticker_keyword': 'CPI', 'side': 'yes', 'prob_shift': 0.15, 'confidence': 0.8, 'rationale': 'hot print'}".

(** A paper order built from [sig_even]. *)
Definition paper_order : Order.TradeOrder :=
  Order.mkOrder (JStr "TEST-TICKER") YES 400 50 sig_even
    (RiskExecutionAgent.size cfg_even sig_even 1000) true None None.
End Fixtures.

(** Whether [process_signals] turns signal [s] into an order: the
    [should_trade] flag of [size(s, bankroll)], which [build_order] tests. *)
Definition should_trade_at (cfg : Config.SuiteConfig) (bankroll : Q) (s : Models.Signal) : bool :=
  Models.should_trade (RiskExecutionAgent.size cfg s bankroll).

(* ================================================================== *)
(** * Properties *)

(** ** Python numeric helpers *)

Lemma ltb_spec (a b : Q) : Py.ltb a b = true <-> (a < b)%Q.
Proof.
  unfold Py.ltb. rewrite negb_true_iff. split; intro H.
  - apply Qnot_le_lt. intro H'. apply Qle_bool_iff in H'. congruence.
  - destruct (Qle_bool b a) eqn:E; auto.
    apply Qle_bool_iff in E. exfalso. exact (Qlt_not_le _ _ H E).
Qed.

Lemma ltb_false (a b : Q) : Py.ltb a b = false <-> (b <= a)%Q.
Proof.
  unfold Py.ltb. rewrite negb_false_iff. apply Qle_bool_iff.
Qed.

Lemma py_max_Qmax (a b : Q) : Py.max a b = Qmax a b.
Proof.
  unfold Py.max, Qmax, GenericMinMax.gmax.
  destruct (Qcompare_spec a b) as [H|H|H].
  - replace (Py.ltb a b) with false; auto.
    symmetry. apply ltb_false. rewrite H. apply Qle_refl.
  - replace (Py.ltb a b) with true; auto. symmetry. now apply ltb_spec.
  - replace (Py.ltb a b) with false; auto.
    symmetry. apply ltb_false. now apply Qlt_le_weak.
Qed.

Lemma py_min_Qmin (a b : Q) : Py.min a b = Qmin a b.
Proof.
  unfold Py.min, Qmin, GenericMinMax.gmin.
  destruct (Qcompare_spec a b) as [H|H|H].
  - replace (Py.ltb b a) with false; auto.
    symmetry. apply ltb_false. rewrite H. apply Qle_refl.
  - replace (Py.ltb b a) with false; auto.
    symmetry. apply ltb_false. now apply Qlt_le_weak.
  - replace (Py.ltb b a) with true; auto. symmetry. now apply ltb_spec.
Qed.

Lemma Qle_bool_false (a b : Q) : Qle_bool a b = false <-> (b < a)%Q.
Proof.
  split; intro H.
  - apply Qnot_le_lt. intro H'. apply Qle_bool_iff in H'. congruence.
  - destruct (Qle_bool a b) eqn:E; auto. apply Qle_bool_iff in E.
    exfalso. exact (Qlt_not_le _ _ H E).
Qed.

(** ** Risk & Execution *)

(** C10: both standalone Kelly functions return 0 for every [p] and every
    [b <= 0], without reaching the division. *)
Theorem kelly_functions_total (p b : Q) :
  (b <= 0)%Q ->
  RiskExecutionAgent.kelly_fraction p b = 0%Q /\ ArbitrageAgent.kelly_criterion p b = 0%Q.
Proof.
  intro Hb. apply Qle_bool_iff in Hb.
  unfold RiskExecutionAgent.kelly_fraction, ArbitrageAgent.kelly_criterion.
  now rewrite Hb.
Qed.

Lemma kelly_fraction_pos (p b : Q) :
  (0 < b)%Q -> RiskExecutionAgent.kelly_fraction p b = ((p * (b + 1) - 1) / b)%Q.
Proof.
  intro Hb. unfold RiskExecutionAgent.kelly_fraction.
  replace (Qle_bool b 0) with false; auto. symmetry. now apply Qle_bool_false.
Qed.

(** C1 (as the code does it): [size] takes [p] and [market_price] from the
    signal's side and rejects a market price outside (0,1); otherwise
    [optimal_fraction] is the Kelly fraction on the fee-adjusted payout
    [net_b] (0 when [net_b <= 0]), [position_size_usd] is
    [round(min(max(0, f* kelly_fraction) bankroll, max_position_usd), 2)],
    [net_ev] is [round(p net_b - (1 - p), 4)], and [should_trade] tests the
    unrounded values.  On the even-money example it returns f* = 0.2,
    position 200.00, net EV 0.2 and [should_trade = true], with gross_b = 1. *)
Theorem size_fee_adjusted_kelly :
  (forall (cfg : Config.SuiteConfig) (s : Models.Signal) (bankroll : Q),
    let p := match Models.side s with
             | Models.YES => Models.estimated_fair_prob s
             | Models.NO => (1 - Models.estimated_fair_prob s)%Q end in
    let mp := match Models.side s with
              | Models.YES => Models.implied_prob s
              | Models.NO => (1 - Models.implied_prob s)%Q end in
    let net_b := ((1 / mp - 1) * (1 - Config.kalshi_fee_rate cfg))%Q in
    let k := RiskExecutionAgent.size cfg s bankroll in
    let f := Models.optimal_fraction k in
    let position :=
      Qmin (Qmax 0 (f * Config.kelly_fraction cfg) * bankroll) (Config.max_position_usd cfg) in
    let ev := (p * net_b - (1 - p))%Q in
    ((mp <= 0 \/ 1 <= mp)%Q -> k = Models.mkKelly 0 0 0 false) /\
    ((0 < mp)%Q -> (mp < 1)%Q ->
       ((0 < net_b)%Q -> f = ((p * (net_b + 1) - 1) / net_b)%Q) /\
       ((net_b <= 0)%Q -> f = 0%Q) /\
       Models.position_size_usd k = Py.round position 2 /\
       Models.net_ev k = Py.round ev 4 /\
       (Models.should_trade k = true <->
          (Config.kelly_edge_min cfg < f /\ 0 < ev /\ 0 < position)%Q))) /\
  (let k := RiskExecutionAgent.size Fixtures.cfg_even Fixtures.sig_even 1000 in
   RiskExecutionAgent.gross_b (Models.implied_prob Fixtures.sig_even) == 1 /\
   Models.optimal_fraction k == 1 # 5 /\
   Models.position_size_usd k == 200 /\
   Models.net_ev k == 1 # 5 /\
   Models.should_trade k = true)%Q.
Proof.
  split.
  - intros cfg s bankroll p mp net_b k f position ev.
    assert (Hsz : k = let b := net_b in
                      if Qle_bool mp 0 || Qle_bool 1 mp then Models.mkKelly 0 0 0 false
                      else
                        let f_star := RiskExecutionAgent.kelly_fraction p b in
                        let pos := Py.min (Py.max 0 (f_star * Config.kelly_fraction cfg)
                                                  * bankroll) (Config.max_position_usd cfg) in
                        Models.mkKelly f_star (Py.round pos 2) (Py.round (p * b - (1 - p)) 4)
                          (Py.ltb (Config.kelly_edge_min cfg) f_star
                           && Py.ltb 0 (p * b - (1 - p)) && Py.ltb 0 pos)).
    { subst k p mp net_b. unfold RiskExecutionAgent.size, RiskExecutionAgent.side_prob_price.
      destruct (Models.side s); reflexivity. }
    split.
    + intros [H | H].
      * rewrite Hsz. apply Qle_bool_iff in H. cbn zeta. now rewrite H.
      * rewrite Hsz. apply Qle_bool_iff in H. cbn zeta. rewrite H, orb_true_r. reflexivity.
    + intros H0 H1.
      assert (Hg : (Qle_bool mp 0 || Qle_bool 1 mp) = false).
      { apply orb_false_iff. split; apply Qle_bool_false; assumption. }
      assert (Hk : k = Models.mkKelly (RiskExecutionAgent.kelly_fraction p net_b)
                         (Py.round (Py.min (Py.max 0 (RiskExecutionAgent.kelly_fraction p net_b
                                                       * Config.kelly_fraction cfg) * bankroll)
                                           (Config.max_position_usd cfg)) 2)
                         (Py.round ev 4)
                         (Py.ltb (Config.kelly_edge_min cfg) (RiskExecutionAgent.kelly_fraction p net_b)
                          && Py.ltb 0 ev
                          && Py.ltb 0 (Py.min (Py.max 0 (RiskExecutionAgent.kelly_fraction p net_b
                                                       * Config.kelly_fraction cfg) * bankroll)
                                              (Config.max_position_usd cfg)))).
      { rewrite Hsz. cbn zeta. now rewrite Hg. }
      subst f position. rewrite Hk. cbn [Models.optimal_fraction Models.position_size_usd
                                         Models.net_ev Models.should_trade].
      rewrite !py_max_Qmax, !py_min_Qmin.
      split; [|split; [|split; [|split]]].
      * apply kelly_fraction_pos.
      * intro Hn. unfold RiskExecutionAgent.kelly_fraction.
        apply Qle_bool_iff in Hn. now rewrite Hn.
      * reflexivity.
      * reflexivity.
      * rewrite !andb_true_iff, !ltb_spec. tauto.
  - vm_compute. repeat split; reflexivity.
Qed.

Lemma int_floor_nonneg (x : Q) : (0 <= x)%Q -> Py.int x = Qfloor x.
Proof.
  destruct x as [n d]. unfold Py.int, Qfloor, Qle. simpl. intro H.
  apply Z.quot_div_nonneg; lia.
Qed.

(** C4 (as the code does it): for a Kelly result with [should_trade = true],
    [build_order] returns an order whose price is [int(implied_prob * 100)]
    (truncated toward zero, which is the floor for a non-negative
    probability), replaced by [100 - price] for a NO signal and clamped to
    [1, 99], and whose [contracts] is [max(1, int(position_size_usd * 100 /
    price_cents))], the floor for a non-negative position. *)
Theorem build_order_price_and_contracts (cfg : Config.SuiteConfig) (s : Models.Signal)
    (k : Models.KellyResult) :
  Models.should_trade k = true ->
  exists o,
    RiskExecutionAgent.build_order cfg s k = Some o /\
    Order.limit_price_cents o =
      Z.max 1 (Z.min 99 (match Models.side s with
                         | Models.YES => Py.int (Models.implied_prob s * 100)
                         | Models.NO => 100 - Py.int (Models.implied_prob s * 100)
                         end)) /\
    Order.contracts o =
      Z.max 1 (Py.int (Models.position_size_usd k * 100 / inject_Z (Order.limit_price_cents o))) /\
    ((0 <= Models.implied_prob s)%Q ->
       Py.int (Models.implied_prob s * 100) = Qfloor (Models.implied_prob s * 100)) /\
    ((0 <= Models.position_size_usd k)%Q ->
       Order.contracts o =
         Z.max 1 (Qfloor (Models.position_size_usd k * 100
                          / inject_Z (Order.limit_price_cents o)))).
Proof.
  intro Ht. unfold RiskExecutionAgent.build_order. rewrite Ht. simpl negb. cbv iota.
  eexists. split; [reflexivity|]. cbn [Order.limit_price_cents Order.contracts].
  split; [|split; [reflexivity|split]].
  - unfold RiskExecutionAgent.price_cents_of. destruct (Models.side s); reflexivity.
  - intro H. apply int_floor_nonneg.
    apply Qmult_le_0_compat; [assumption|discriminate].
  - intro H. f_equal. apply int_floor_nonneg.
    apply Qle_shift_div_l.
    + unfold RiskExecutionAgent.price_cents_of, Qlt. simpl. lia.
    + rewrite Qmult_0_l. apply Qmult_le_0_compat; [assumption|discriminate].
Qed.

(** C8: every order built by [build_order] has
    [1 <= limit_price_cents <= 99] and [contracts >= 1]. *)
Theorem build_order_bounds (cfg : Config.SuiteConfig) (s : Models.Signal)
    (k : Models.KellyResult) (o : Order.TradeOrder) :
  RiskExecutionAgent.build_order cfg s k = Some o ->
  1 <= Order.limit_price_cents o <= 99 /\ 1 <= Order.contracts o.
Proof.
  unfold RiskExecutionAgent.build_order.
  destruct (negb (Models.should_trade k)); [discriminate|].
  intro H. injection H as <-. cbn [Order.limit_price_cents Order.contracts].
  unfold RiskExecutionAgent.price_cents_of. lia.
Qed.

(** The effect of executing a paper order. *)
Lemma paper_execute_spec (auth : Outcome unit) (exchange : Outcome json) (o : Order.TradeOrder)
    (w : World.World) :
  Order.paper o = true ->
  let '(o', w') := RiskExecutionAgent.execute auth exchange o w in
  World.requests w' = World.requests w /\
  World.sleeps w' = World.sleeps w /\
  Order.fill_price_cents o' = Some (Order.limit_price_cents o) /\
  exists r, World.journal w' = World.journal w ++ [r] /\
            World.r_paper r = true /\
            World.r_limit_price_cents r = Order.limit_price_cents o /\
            World.r_fill_price_cents r = Order.limit_price_cents o.
Proof.
  intro Hp. unfold RiskExecutionAgent.execute. rewrite Hp.
  unfold RiskExecutionAgent.paper_execute, World.append_journal. simpl.
  repeat split; auto. eexists. repeat split; reflexivity.
Qed.

(** The live path, by contrast, sends exactly one POST to [/portfolio/orders]
    once the client signs. *)
Lemma live_execute_one_post (exchange : Outcome json) (o : Order.TradeOrder) (w : World.World) :
  Order.paper o = false ->
  World.requests (snd (RiskExecutionAgent.execute (Ok tt) exchange o w)) =
    World.requests w ++
      [World.mkRequest "POST" "/portfolio/orders" (RiskExecutionAgent.place_order_body o)].
Proof.
  intro Hp. unfold RiskExecutionAgent.execute. rewrite Hp.
  unfold RiskExecutionAgent.live_execute.
  destruct (_ <- exchange ;; _) ; reflexivity.
Qed.

(** In paper mode a whole batch of signals sends no request. *)
Lemma process_signals_paper_no_request (cfg : Config.SuiteConfig) (auth : Outcome unit)
    (exchange : nat -> Outcome json)
    (signals : list Models.Signal) (bankroll : Q) (i : nat) (w : World.World) :
  Config.paper_trading cfg = true ->
  World.requests (snd (RiskExecutionAgent.process_signals_from cfg auth exchange i signals bankroll w))
  = World.requests w.
Proof.
  intro Hp. revert i w. induction signals as [|sg rest IH]; intros i w; [reflexivity|].
  simpl. destruct (RiskExecutionAgent.build_order cfg sg _) as [o|] eqn:Hb; [|apply IH].
  assert (Ho : Order.paper o = true).
  { unfold RiskExecutionAgent.build_order in Hb.
    destruct (negb _); [discriminate|]. injection Hb as <-. exact Hp. }
  pose proof (paper_execute_spec auth (exchange i) o w Ho) as He.
  destruct (RiskExecutionAgent.execute auth (exchange i) o w) as [o' w'] eqn:Hx.
  destruct He as [Hr _].
  destruct (RiskExecutionAgent.process_signals_from cfg auth exchange (S i) rest bankroll w') as [os w''] eqn:Hy.
  simpl. specialize (IH (S i) w'). rewrite Hy in IH. simpl in IH. congruence.
Qed.

(** C7: executing an order with [paper = true] sends no request at all (in
    particular no POST to [/portfolio/orders]) and sleeps nowhere; it sets
    [fill_price_cents] to [limit_price_cents] and appends exactly one record
    to the trade journal, a paper record whose fill is the limit price. *)
Theorem paper_execute_journal_only (auth : Outcome unit) (exchange : Outcome json)
    (o : Order.TradeOrder) (w : World.World) :
  Order.paper o = true ->
  let '(o', w') := RiskExecutionAgent.execute auth exchange o w in
  World.requests w' = World.requests w /\
  World.sleeps w' = World.sleeps w /\
  Order.fill_price_cents o' = Some (Order.limit_price_cents o) /\
  exists r, World.journal w' = World.journal w ++ [r] /\
            World.r_paper r = true /\
            World.r_limit_price_cents r = Order.limit_price_cents o /\
            World.r_fill_price_cents r = Order.limit_price_cents o.
Proof. exact (paper_execute_spec auth exchange o w). Qed.

(** ** Orderbook scanner *)

Lemma parse_orderbook_shape (tk raw : json) (snap : Snapshot.OrderbookSnapshot) :
  OrderbookAgent.parse_orderbook tk raw = Ok (Some snap) ->
  Snapshot.spread_cents snap = (Snapshot.synthetic_yes_ask snap - Snapshot.best_yes_bid snap)%Q /\
  ((0 < Snapshot.best_no_bid snap)%Q ->
     Snapshot.synthetic_yes_ask snap = (100 - Snapshot.best_no_bid snap)%Q) /\
  ((Snapshot.best_no_bid snap <= 0)%Q -> Snapshot.synthetic_yes_ask snap = 100%Q).
Proof.
  unfold OrderbookAgent.parse_orderbook, bind.
  destruct (Json.get raw _ raw) as [ob|]; [|discriminate].
  destruct (Json.get ob "yes"%string _) as [yb|]; [|discriminate].
  destruct (Json.get ob "no"%string _) as [nb|]; [|discriminate].
  destruct (negb _ && negb _); [discriminate|].
  destruct (OrderbookAgent.best_bid yb) as [y|]; [|discriminate].
  destruct (OrderbookAgent.best_bid nb) as [n|]; [|discriminate].
  destruct (Json.num n) as [nq|]; [|discriminate].
  destruct (Json.num y) as [yq|]; [|discriminate].
  intro H. injection H as <-. cbn.
  split; [reflexivity|split; intro Hn].
  - replace (Py.ltb 0 nq) with true; [reflexivity|]. symmetry. now apply ltb_spec.
  - replace (Py.ltb 0 nq) with false; [reflexivity|]. symmetry. now apply ltb_false.
Qed.

(** C5: the book with YES bids [[40,100]] and NO bids [[55,80]] parses to
    best_yes_bid 40, best_no_bid 55, synthetic_yes_ask 45, spread 5; with
    threshold 3 the scanner emits a YES signal with implied 0.40, fair 0.425
    (the midpoint (40 + 45)/200) and confidence 0.5 (min(5/10, 1)); and for
    every book, a spread at or below the threshold emits no signal. *)
Theorem orderbook_void_detection :
  (exists snap,
     OrderbookAgent.parse_orderbook (JStr "T") Fixtures.book_void = Ok (Some snap) /\
     Snapshot.best_yes_bid snap == 40 /\ Snapshot.best_no_bid snap == 55 /\
     Snapshot.synthetic_yes_ask snap == 45 /\ Snapshot.spread_cents snap == 5)%Q /\
  (exists sg,
     OrderbookAgent.scan_market Config.default (JStr "T") (Ok Fixtures.book_void) = Ok (Some sg) /\
     Models.side sg = Models.YES /\
     Models.implied_prob sg == 40 # 100 /\
     Models.estimated_fair_prob sg == 425 # 1000 /\
     Models.estimated_fair_prob sg == (40 + 45) / 200 /\
     Models.confidence sg == Qmin (5 / 10) 1 /\
     Models.confidence sg == 1 # 2)%Q /\
  (forall (cfg : Config.SuiteConfig) (tk raw : json) (snap : Snapshot.OrderbookSnapshot),
     OrderbookAgent.parse_orderbook tk raw = Ok (Some snap) ->
     (Snapshot.spread_cents snap <= inject_Z (Config.spread_threshold_cents cfg))%Q ->
     OrderbookAgent.scan_market cfg tk (Ok raw) = Ok None).
Proof.
  split; [|split].
  - eexists. split; [reflexivity|]. vm_compute. repeat split; reflexivity.
  - eexists. split; [reflexivity|]. vm_compute. repeat split; reflexivity.
  - intros cfg tk raw snap Hp Hs. unfold OrderbookAgent.scan_market. simpl.
    rewrite Hp. simpl. apply Qle_bool_iff in Hs. now rewrite Hs.
Qed.

(** ** The signal invariant, producer by producer *)

Ltac split_outcomes H :=
  repeat match type of H with
  | context [match ?x with _ => _ end] => destruct x eqn:?; try discriminate
  end.







(** The arbitrage scanner's NO signals record [1 - external] (the NO
    probability) as [estimated_fair_prob] next to the YES-side
    [implied_prob]: on the matched pair below (exchange 0.30, external 0.20)
    it emits a NO signal with fair 0.8 and implied 0.3, which is not of the
    shape [fair <= implied] expected of a NO signal. *)
Lemma arbitrage_no_signal_example :
  exists sg,
    ArbitrageAgent.scan Config.default
      (Ok (JObj [("markets", JArr [Fixtures.kalshi_market])]%string))
      (JArr [Fixtures.external_market]) = Ok [sg] /\
    Models.side sg = Models.NO /\
    (Models.estimated_fair_prob sg == 4 # 5)%Q /\
    (Models.implied_prob sg == 3 # 10)%Q /\
    ~ Invariants.signal_invariant sg.
Proof.
  vm_compute. eexists. split; [reflexivity|].
  split; [reflexivity|]. split; [reflexivity|]. split; [reflexivity|].
  intros [_ [H _]]. specialize (H eq_refl). vm_compute in H. apply H. reflexivity.
Qed.




(** ** Orchestrator: producer failures *)

(** C3: the orchestrator gathers the producers with
    [return_exceptions=False], so an exception raised by any one producer
    aborts the whole cycle: [run_cycle] re-raises and leaves the world
    unchanged (nothing sized, nothing journaled, nothing sent).  On the
    concrete cycle below, the arbitrage scanner fails on an HTTP 500 from
    [get_markets] while the orderbook producer has a tradeable signal: the
    cycle raises and executes nothing, whereas with the arbitrage
    contribution replaced by [[]] the same signal is sized and journaled. *)
Theorem run_cycle_producer_exception_aborts :
  (forall cfg ob nlp arb auth exchange bankroll w e,
      (ob = Raised e \/ nlp = Raised e \/ arb = Raised e) ->
      exists e', Orchestrator.run_cycle cfg ob nlp arb auth exchange bankroll w = (Raised e', w)) /\
  Orchestrator.run_cycle Fixtures.cfg_even (Ok [Fixtures.sig_even]) (Ok [])
    (ArbitrageAgent.scan Fixtures.cfg_even (Raised (HTTPStatusError 500)) (JArr []))
    (Ok tt) (fun _ => Raised TransportError) 1000 World.empty
  = (Raised (HTTPStatusError 500), World.empty) /\
  (exists orders w',
      Orchestrator.run_cycle Fixtures.cfg_even (Ok [Fixtures.sig_even]) (Ok []) (Ok [])
        (Ok tt) (fun _ => Raised TransportError) 1000 World.empty = (Ok (Some orders), w') /\
      List.length orders = 1%nat /\ List.length (World.journal w') = 1%nat).
Proof.
  split; [|split].
  - intros cfg ob nlp arb auth exchange bankroll w e H.
    unfold Orchestrator.run_cycle, Orchestrator.gather3, bind.
    destruct H as [ -> | [ -> | -> ] ].
    + exists e. reflexivity.
    + destruct ob; [exists e; reflexivity|eexists; reflexivity].
    + destruct ob; [|eexists; reflexivity].
      destruct nlp; [exists e; reflexivity|eexists; reflexivity].
  - vm_compute. reflexivity.
  - vm_compute. do 2 eexists. split; [reflexivity|]. split; reflexivity.
Qed.

Lemma run_cycle_producer_exception_aborts_witness :
  exists e', Orchestrator.run_cycle Fixtures.cfg_even (Ok [Fixtures.sig_even]) (Ok [])
               (Raised (HTTPStatusError 500)) (Ok tt) (fun _ => Raised TransportError) 1000
               World.empty = (Raised e', World.empty).
Proof.
  apply (proj1 run_cycle_producer_exception_aborts Fixtures.cfg_even
           (Ok [Fixtures.sig_even]) (Ok []) (Raised (HTTPStatusError 500))
           (Ok tt) (fun _ => Raised TransportError) 1000%Q World.empty (HTTPStatusError 500)).
  right; right; reflexivity.
Defined.

(** ** Exchange gateway: rate-limit retry *)






(** ** News analyzer: LLM response handling *)

(** C9 (amended): for every [json.loads] and every completion content, an
    answer that fails to parse ([JSONDecodeError]) is discarded with a
    warning and yields no item; a parsed JSON array is processed item by
    item; and a parsed value that is not an array is processed as the
    one-item array [[v]] (it is not discarded). *)
Theorem analyze_headline_response_handling :
  forall (loads : string -> Outcome json) (content : option string),
    (loads (NLPAgent.raw_text content) = Raised JSONDecodeError ->
     NLPAgent.analyze_headline loads (Ok content)
       = Ok ([], [(WARNING, "GPT returned non-JSON"%string)])) /\
    (forall l, loads (NLPAgent.raw_text content) = Ok (JArr l) ->
     NLPAgent.analyze_headline loads (Ok content) = Ok (NLPAgent.parse_items l)) /\
    (forall v, loads (NLPAgent.raw_text content) = Ok v -> (forall l, v <> JArr l) ->
     NLPAgent.analyze_headline loads (Ok content) = Ok (NLPAgent.parse_items [v])).
Proof.
  intros loads content. unfold NLPAgent.analyze_headline.
  split; [|split].
  - intros H. rewrite H. reflexivity.
  - intros l H. rewrite H. reflexivity.
  - intros v H Hv. rewrite H.
    destruct v; try reflexivity. exfalso. exact (Hv l eq_refl).
Qed.

Lemma analyze_headline_response_handling_witness :
  NLPAgent.analyze_headline JsonDecode.loads (Ok (Some "not json"%string))
    = Ok ([], [(WARNING, "GPT returned non-JSON"%string)]).
Proof.
  apply (proj1 (analyze_headline_response_handling JsonDecode.loads (Some "not json"%string))).
  vm_compute. reflexivity.
Defined.

(** C9 counterexample: a completion holding the single JSON object
    [{"ticker_keyword": "CPI", "side": "yes", "prob_shift": 0.15, ...}]
    parses to an object, not an array, and still yields one raw signal, with
    no warning. *)
Lemma analyze_headline_object_kept :
  (exists kvs, JsonDecode.loads Fixtures.llm_object_answer = Ok (JObj kvs)) /\
  exists r,
    NLPAgent.analyze_headline JsonDecode.loads (Ok (Some Fixtures.llm_object_answer)) = Ok ([r], []) /\
    NLPAgent.ticker_keyword r = JStr "CPI" /\
    (NLPAgent.prob_shift r == 15 # 100)%Q.
Proof.
  split.
  - vm_compute. eexists. reflexivity.
  - vm_compute. eexists. split; [reflexivity|]. split; reflexivity.
Qed.

(** ** Witnesses and counterexamples of the sizing and order claims *)

Lemma kelly_functions_total_witness :
  RiskExecutionAgent.kelly_fraction (3 # 5) (-1) = 0%Q /\
  ArbitrageAgent.kelly_criterion (3 # 5) (-1) = 0%Q.
Proof. apply (kelly_functions_total (3 # 5) (-1)). discriminate. Defined.

Lemma size_fee_adjusted_kelly_witness :
  Models.optimal_fraction (RiskExecutionAgent.size Fixtures.cfg_even Fixtures.sig_even 1000%Q)
  = (((3 # 5) * ((1 / (1 # 2) - 1) * (1 - 0) + 1) - 1) / ((1 / (1 # 2) - 1) * (1 - 0)))%Q.
Proof.
  pose proof (proj1 size_fee_adjusted_kelly Fixtures.cfg_even Fixtures.sig_even 1000%Q) as H.
  cbv zeta in H. destruct H as [_ H].
  destruct (H ltac:(vm_compute; reflexivity) ltac:(vm_compute; reflexivity)) as [Hf _].
  exact (Hf ltac:(vm_compute; reflexivity)).
Defined.

(** C1 counterexample: with bankroll $0.01 on the even-money signal the
    unrounded position 0.002 makes [should_trade] true, while the returned
    [position_size_usd] is rounded to 0.00 rather than
    [min(max(0, f* kelly_fraction) bankroll, max_position_usd) = 0.002]. *)
Lemma size_position_rounded_to_zero :
  let k := RiskExecutionAgent.size Fixtures.cfg_even Fixtures.sig_even (1 # 100) in
  Models.should_trade k = true /\
  (Models.position_size_usd k == 0)%Q /\
  ~ (Models.position_size_usd k ==
       Qmin (Qmax 0 (Models.optimal_fraction k * 1) * (1 # 100)) 10000)%Q.
Proof.
  vm_compute. split; [reflexivity|]. split; [reflexivity|]. discriminate.
Qed.

Lemma build_order_price_and_contracts_witness :
  exists o,
    RiskExecutionAgent.build_order Fixtures.cfg_even Fixtures.sig_even
      (RiskExecutionAgent.size Fixtures.cfg_even Fixtures.sig_even 1000%Q) = Some o /\
    Order.limit_price_cents o = Z.max 1 (Z.min 99 (Py.int ((1 # 2) * 100))).
Proof.
  destruct (build_order_price_and_contracts Fixtures.cfg_even Fixtures.sig_even
              (RiskExecutionAgent.size Fixtures.cfg_even Fixtures.sig_even 1000%Q)
              ltac:(vm_compute; reflexivity)) as (o & Hb & Hl & _).
  exists o. split; [exact Hb|exact Hl].
Defined.

(** C4 counterexample: for the tradeable YES signal with
    [implied_prob = 0.296], [build_order] prices at 29 cents
    ([int(29.6)]), not at [round(29.6) = 30]. *)
Lemma build_order_truncates_price :
  let k := RiskExecutionAgent.size Fixtures.cfg_even Fixtures.sig_296 1000 in
  Models.should_trade k = true /\
  (exists o, RiskExecutionAgent.build_order Fixtures.cfg_even Fixtures.sig_296 k = Some o /\
             Order.limit_price_cents o = 29) /\
  Z.max 1 (Z.min 99 (Py.round_half_even (Models.implied_prob Fixtures.sig_296 * 100))) = 30.
Proof.
  vm_compute. split; [reflexivity|]. split; [eexists; split; reflexivity|reflexivity].
Qed.

Lemma build_order_bounds_witness :
  exists o,
    RiskExecutionAgent.build_order Fixtures.cfg_even Fixtures.sig_even
      (RiskExecutionAgent.size Fixtures.cfg_even Fixtures.sig_even 1000%Q) = Some o /\
    1 <= Order.limit_price_cents o <= 99 /\ 1 <= Order.contracts o.
Proof.
  eexists. split; [vm_compute; reflexivity|].
  apply (build_order_bounds Fixtures.cfg_even Fixtures.sig_even
           (RiskExecutionAgent.size Fixtures.cfg_even Fixtures.sig_even 1000%Q)).
  vm_compute. reflexivity.
Defined.

Lemma paper_execute_journal_only_witness :
  let '(o', w') := RiskExecutionAgent.execute (Ok tt) (Raised TransportError)
                     Fixtures.paper_order World.empty in
  World.requests w' = World.requests World.empty /\
  World.sleeps w' = World.sleeps World.empty /\
  Order.fill_price_cents o' = Some (Order.limit_price_cents Fixtures.paper_order) /\
  exists r, World.journal w' = (World.journal World.empty ++ [r])%list /\
            World.r_paper r = true /\
            World.r_limit_price_cents r = Order.limit_price_cents Fixtures.paper_order /\
            World.r_fill_price_cents r = Order.limit_price_cents Fixtures.paper_order.
Proof.
  apply (paper_execute_journal_only (Ok tt) (Raised TransportError) Fixtures.paper_order
           World.empty).
  reflexivity.
Defined.

Lemma orderbook_void_detection_witness :
  OrderbookAgent.scan_market (Config.mkConfig true (7 # 100) 5 (5 # 100) (10 # 100) 500 (25 # 100))
    (JStr "T") (Ok Fixtures.book_void) = Ok None.
Proof.
  apply (proj2 (proj2 orderbook_void_detection)
           (Config.mkConfig true (7 # 100) 5 (5 # 100) (10 # 100) 500 (25 # 100))
           (JStr "T") Fixtures.book_void (Snapshot.mkSnapshot (JStr "T") 40 55 45 5)).
  - vm_compute. reflexivity.
  - vm_compute. discriminate.
Defined.

(* ================================================================== *)
(** * Further properties of the code *)

(** ** Risk & Execution: batches, live submission, position bounds *)

Lemma build_order_some_iff (cfg : Config.SuiteConfig) (s : Models.Signal) (k : Models.KellyResult) :
  match RiskExecutionAgent.build_order cfg s k with
  | None => Models.should_trade k = false
  | Some o => Models.should_trade k = true /\ Order.paper o = Config.paper_trading cfg /\
              Order.fill_price_cents o = None /\ Order.order_id o = None
  end.
Proof.
  unfold RiskExecutionAgent.build_order.
  destruct (Models.should_trade k); simpl; auto.
Qed.

(** What [_live_execute] keeps of the order and what it sends. *)
Lemma live_execute_shape (auth : Outcome unit) (exchange : Outcome json) (o : Order.TradeOrder)
    (w : World.World) :
  let '(o', w') := RiskExecutionAgent.live_execute auth exchange o w in
  w' = match auth with Ok _ => World.send (RiskExecutionAgent.place_order_request o) w | Raised _ => w end /\
  Order.ticker o' = Order.ticker o /\ Order.side o' = Order.side o /\
  Order.contracts o' = Order.contracts o /\
  Order.limit_price_cents o' = Order.limit_price_cents o /\
  Order.paper o' = Order.paper o /\ Order.fill_price_cents o' = Order.fill_price_cents o /\
  (forall e, auth = Raised e -> o' = o).
Proof.
  unfold RiskExecutionAgent.live_execute.
  destruct auth as [u|e].
  - destruct (_ <- exchange ;; _); simpl; repeat split; try reflexivity; discriminate.
  - simpl. repeat split; reflexivity.
Qed.

Lemma process_signals_paper_from (cfg : Config.SuiteConfig) (auth : Outcome unit)
    (exchange : nat -> Outcome json)
    (signals : list Models.Signal) (bankroll : Q) (i : nat) (w : World.World) :
  Config.paper_trading cfg = true ->
  let '(orders, w') := RiskExecutionAgent.process_signals_from cfg auth exchange i signals bankroll w in
  World.requests w' = World.requests w /\ World.sleeps w' = World.sleeps w /\
  (exists recs, World.journal w' = (World.journal w ++ recs)%list /\
                List.length recs = List.length orders) /\
  List.length orders = List.length (filter (should_trade_at cfg bankroll) signals) /\
  Forall (fun o => Order.fill_price_cents o = Some (Order.limit_price_cents o) /\
                   Order.paper o = true) orders.
Proof.
  intro Hp. revert i w. induction signals as [|sg rest IH]; intros i w.
  - simpl. repeat split; auto. exists []. rewrite app_nil_r. auto.
  - simpl. pose proof (build_order_some_iff cfg sg (RiskExecutionAgent.size cfg sg bankroll)) as Hb.
    unfold should_trade_at at 1.
    destruct (RiskExecutionAgent.build_order cfg sg _) as [o|] eqn:E.
    + destruct Hb as (Ht & Hpo & _). rewrite Ht. rewrite Hp in Hpo.
      unfold RiskExecutionAgent.execute. rewrite Hpo.
      unfold RiskExecutionAgent.paper_execute.
      match goal with |- context [RiskExecutionAgent.process_signals_from _ _ _ _ _ _ ?w1] =>
        specialize (IH (S i) w1);
        destruct (RiskExecutionAgent.process_signals_from cfg auth exchange (S i) rest bankroll w1)
          as [os w''] end.
      destruct IH as (Hr & Hs & (recs & Hj & Hl) & Hn & Hf).
      simpl in *. repeat split.
      * exact Hr.
      * exact Hs.
      * eexists. rewrite Hj, <- app_assoc. split; [reflexivity|]. simpl. rewrite Hl. reflexivity.
      * simpl. rewrite Hn. reflexivity.
      * constructor; [split; [reflexivity|exact Hpo]|exact Hf].
    + rewrite Hb. apply IH.
Qed.

Lemma process_signals_live_from (cfg : Config.SuiteConfig) (auth : Outcome unit)
    (exchange : nat -> Outcome json)
    (signals : list Models.Signal) (bankroll : Q) (i : nat) (w : World.World) :
  Config.paper_trading cfg = false ->
  let '(orders, w') := RiskExecutionAgent.process_signals_from cfg auth exchange i signals bankroll w in
  World.journal w' = World.journal w /\ World.sleeps w' = World.sleeps w /\
  World.requests w' =
    (World.requests w ++
     match auth with
     | Ok _ => map (fun o => RiskExecutionAgent.place_order_request o) orders
     | Raised _ => []
     end)%list /\
  List.length orders = List.length (filter (should_trade_at cfg bankroll) signals) /\
  Forall (fun o => Order.paper o = false /\ Order.fill_price_cents o = None) orders /\
  (forall e, auth = Raised e -> Forall (fun o => Order.order_id o = None) orders).
Proof.
  intro Hp. revert i w. induction signals as [|sg rest IH]; intros i w.
  - simpl. destruct auth; rewrite app_nil_r; repeat split; auto.
  - simpl. pose proof (build_order_some_iff cfg sg (RiskExecutionAgent.size cfg sg bankroll)) as Hb.
    unfold should_trade_at at 1.
    destruct (RiskExecutionAgent.build_order cfg sg _) as [o|] eqn:E.
    + destruct Hb as (Ht & Hpo & Hfo & Hid). rewrite Ht. rewrite Hp in Hpo.
      unfold RiskExecutionAgent.execute. rewrite Hpo.
      pose proof (live_execute_shape auth (exchange i) o w) as Hl.
      destruct (RiskExecutionAgent.live_execute auth (exchange i) o w) as [o' w1].
      destruct Hl as (Hw1 & Htk & Hsd & Hc & Hlim & Hpp & Hff & Hun).
      specialize (IH (S i) w1).
      destruct (RiskExecutionAgent.process_signals_from cfg auth exchange (S i) rest bankroll w1)
        as [os w''].
      destruct IH as (Hj & Hs & Hr & Hn & Hf & Hi).
      assert (Hbody : RiskExecutionAgent.place_order_request o' =
                      RiskExecutionAgent.place_order_request o).
      { unfold RiskExecutionAgent.place_order_request, RiskExecutionAgent.place_order_body.
        rewrite Htk, Hsd, Hc, Hlim. reflexivity. }
      simpl in *. repeat split.
      * rewrite Hj, Hw1. destruct auth; reflexivity.
      * rewrite Hs, Hw1. destruct auth; reflexivity.
      * rewrite Hr, Hw1. destruct auth; simpl; [rewrite Hbody, <- app_assoc|]; reflexivity.
      * rewrite Hn. reflexivity.
      * constructor; [split; congruence|exact Hf].
      * intros e He. constructor; [rewrite (Hun e He); exact Hid|exact (Hi e He)].
    + rewrite Hb. apply IH.
Qed.

(** Paper mode: [process_signals] sends no request and sleeps nowhere; it
    returns one order per signal whose sizing says [should_trade], each
    filled at its limit price, and appends exactly one journal record per
    returned order after the existing ones (the journal is append-only). *)
Theorem process_signals_paper_batch (cfg : Config.SuiteConfig) (auth : Outcome unit)
    (exchange : nat -> Outcome json)
    (signals : list Models.Signal) (bankroll : Q) (w : World.World) :
  Config.paper_trading cfg = true ->
  let '(orders, w') := RiskExecutionAgent.process_signals cfg auth exchange signals bankroll w in
  World.requests w' = World.requests w /\ World.sleeps w' = World.sleeps w /\
  (exists recs, World.journal w' = (World.journal w ++ recs)%list /\
                List.length recs = List.length orders) /\
  List.length orders = List.length (filter (should_trade_at cfg bankroll) signals) /\
  Forall (fun o => Order.fill_price_cents o = Some (Order.limit_price_cents o) /\
                   Order.paper o = true) orders.
Proof. intro Hp. exact (process_signals_paper_from cfg auth exchange signals bankroll 0 w Hp). Qed.

Lemma process_signals_paper_batch_witness :
  let '(orders, w') := RiskExecutionAgent.process_signals Fixtures.cfg_even (Ok tt)
                         (fun _ => Raised TransportError)
                         [Fixtures.sig_even; Fixtures.sig_296] 1000 World.empty in
  World.requests w' = World.requests World.empty /\ World.sleeps w' = World.sleeps World.empty /\
  (exists recs, World.journal w' = (World.journal World.empty ++ recs)%list /\
                List.length recs = List.length orders) /\
  List.length orders =
    List.length (filter (should_trade_at Fixtures.cfg_even 1000)
                   [Fixtures.sig_even; Fixtures.sig_296]) /\
  Forall (fun o => Order.fill_price_cents o = Some (Order.limit_price_cents o) /\
                   Order.paper o = true) orders.
Proof.
  apply (process_signals_paper_batch Fixtures.cfg_even (Ok tt) (fun _ => Raised TransportError)
           [Fixtures.sig_even; Fixtures.sig_296] 1000%Q World.empty).
  reflexivity.
Defined.

(** Live mode: [process_signals] writes no journal record and sleeps
    nowhere; it returns one order per signal whose sizing says
    [should_trade], none of them marked filled.  When the client signs
    ([auth] succeeds) it sends exactly one POST to [/portfolio/orders] per
    returned order, in order, whatever the exchange answers (a failed
    placement still counts as an order); when [_ensure_auth] raises
    (e.g. no key configured), each placement fails before sending, so no
    request is sent and every order comes back without an [order_id]. *)
Theorem process_signals_live_batch (cfg : Config.SuiteConfig) (auth : Outcome unit)
    (exchange : nat -> Outcome json)
    (signals : list Models.Signal) (bankroll : Q) (w : World.World) :
  Config.paper_trading cfg = false ->
  let '(orders, w') := RiskExecutionAgent.process_signals cfg auth exchange signals bankroll w in
  World.journal w' = World.journal w /\ World.sleeps w' = World.sleeps w /\
  World.requests w' =
    (World.requests w ++
     match auth with
     | Ok _ => map (fun o => RiskExecutionAgent.place_order_request o) orders
     | Raised _ => []
     end)%list /\
  List.length orders = List.length (filter (should_trade_at cfg bankroll) signals) /\
  Forall (fun o => Order.paper o = false /\ Order.fill_price_cents o = None) orders /\
  (forall e, auth = Raised e -> Forall (fun o => Order.order_id o = None) orders).
Proof. intro Hp. exact (process_signals_live_from cfg auth exchange signals bankroll 0 w Hp). Qed.

Lemma process_signals_live_batch_witness :
  let cfg := Config.mkConfig false 0 3 (5 # 100) (10 # 100) 10000 1 in
  let '(orders, w') := RiskExecutionAgent.process_signals cfg (Raised ValueError)
                         (fun _ => Raised TransportError)
                         [Fixtures.sig_even; Fixtures.sig_296] 1000 World.empty in
  World.journal w' = World.journal World.empty /\ World.sleeps w' = World.sleeps World.empty /\
  World.requests w' = (World.requests World.empty ++ [])%list /\
  List.length orders =
    List.length (filter (should_trade_at cfg 1000) [Fixtures.sig_even; Fixtures.sig_296]) /\
  Forall (fun o => Order.paper o = false /\ Order.fill_price_cents o = None) orders /\
  (forall e, @Raised unit ValueError = Raised e -> Forall (fun o => Order.order_id o = None) orders).
Proof.
  intro cfg.
  apply (process_signals_live_batch cfg (Raised ValueError) (fun _ => Raised TransportError)
           [Fixtures.sig_even; Fixtures.sig_296] 1000%Q World.empty).
  reflexivity.
Defined.

(** [_live_execute]: when [_ensure_auth] raises, the exception is caught
    and the order comes back unchanged, with nothing sent.  When the
    client signs, it sends one POST to [/portfolio/orders] whose body asks
    to buy [contracts] contracts at a limit, with the limit price under
    [yes_price] for a YES order and under [no_price] for a NO order (and
    not the other key).  If the placement then raises, the order comes
    back unchanged; if the exchange answers
    [{"order": {"order_id": id}}] it comes back with that [order_id] and
    otherwise unchanged. *)
Theorem live_execute_submission (auth : Outcome unit) (exchange : Outcome json)
    (o : Order.TradeOrder) (w : World.World) :
  let '(o', w') := RiskExecutionAgent.live_execute auth exchange o w in
  let body := RiskExecutionAgent.place_order_body o in
  (forall e, auth = Raised e -> o' = o /\ w' = w) /\
  (forall u, auth = Ok u ->
  World.requests w' = (World.requests w ++ [World.mkRequest "POST" "/portfolio/orders" body])%list /\
  World.journal w' = World.journal w /\
  (exists kvs, body = JObj kvs /\
     Json.lookup "action" kvs = Some (JStr "buy") /\
     Json.lookup "type" kvs = Some (JStr "limit") /\
     Json.lookup "count" kvs = Some (JNum (inject_Z (Order.contracts o))) /\
     match Order.side o with
     | Models.YES => Json.lookup "yes_price" kvs = Some (JNum (inject_Z (Order.limit_price_cents o))) /\
                     Json.lookup "no_price" kvs = None
     | Models.NO => Json.lookup "no_price" kvs = Some (JNum (inject_Z (Order.limit_price_cents o))) /\
                    Json.lookup "yes_price" kvs = None
     end) /\
  (forall e, exchange = Raised e -> o' = o) /\
  (forall id, exchange = Ok (JObj [("order", JObj [("order_id", id)])]%string) ->
     o' = Order.mkOrder (Order.ticker o) (Order.side o) (Order.contracts o)
            (Order.limit_price_cents o) (Order.signal o) (Order.kelly o) (Order.paper o)
            (Some id) (Order.fill_price_cents o))).
Proof.
  unfold RiskExecutionAgent.live_execute.
  destruct auth as [u0|e0].
  2: { simpl. split; [intros e _; split; reflexivity|intros u Hu; discriminate]. }
  destruct (_ <- exchange ;; _) as [v|e] eqn:Ex; simpl;
    (split; [intros e0 He0; discriminate|intros u _]).
  - repeat split.
    + eexists. split; [reflexivity|].
      destruct (Order.side o); repeat split; reflexivity.
    + intros e He. rewrite He in Ex. discriminate.
    + intros id Hi. rewrite Hi in Ex. simpl in Ex. injection Ex as <-. reflexivity.
  - repeat split.
    + eexists. split; [reflexivity|].
      destruct (Order.side o); repeat split; reflexivity.
    + intros id Hi. rewrite Hi in Ex. discriminate.
Qed.

(** ** Rounding *)

Lemma round_half_even_bounds (x : Q) :
  (Qfloor x <= Py.round_half_even x <= Qfloor x + 1)%Z.
Proof.
  unfold Py.round_half_even.
  destruct (Qcompare _ _); try destruct (Z.even _); lia.
Qed.

Lemma round_half_even_int (n : Z) : Py.round_half_even (inject_Z n) = n.
Proof.
  unfold Py.round_half_even. rewrite Qfloor_Z.
  assert (H0 : (inject_Z n - inject_Z n == 0)%Q) by ring.
  rewrite H0. reflexivity.
Qed.

Lemma round_half_even_mono (x y : Q) :
  (x <= y)%Q -> (Py.round_half_even x <= Py.round_half_even y)%Z.
Proof.
  intro H.
  pose proof (Qfloor_resp_le x y H) as Hf.
  destruct (Z.eq_dec (Qfloor x) (Qfloor y)) as [E|E].
  - unfold Py.round_half_even. rewrite <- E.
    set (f := Qfloor x) in *.
    destruct (Qcompare_spec (x - inject_Z f) (1 # 2)) as [Hx|Hx|Hx];
    destruct (Qcompare_spec (y - inject_Z f) (1 # 2)) as [Hy|Hy|Hy];
    try (destruct (Z.even f)); try lia; exfalso; lra.
  - pose proof (round_half_even_bounds x). pose proof (round_half_even_bounds y). lia.
Qed.

Lemma round2_nonneg (x : Q) : (0 <= x)%Q -> (0 <= Py.round x 2)%Q.
Proof.
  intro H. unfold Py.round.
  assert (0 <= Py.round_half_even (x * inject_Z (10 ^ 2)))%Z.
  { rewrite <- (round_half_even_int 0). apply round_half_even_mono.
    simpl. apply Qmult_le_0_compat; [exact H|discriminate]. }
  apply Qle_shift_div_l; [reflexivity|]. rewrite Qmult_0_l.
  change 0%Q with (inject_Z 0). rewrite <- Zle_Qle. exact H0.
Qed.

Lemma round2_le_whole (x : Q) (m : Z) : (x <= inject_Z m)%Q -> (Py.round x 2 <= inject_Z m)%Q.
Proof.
  intro H. unfold Py.round.
  assert (Py.round_half_even (x * inject_Z (10 ^ 2)) <= m * 100)%Z.
  { rewrite <- (round_half_even_int (m * 100)). apply round_half_even_mono.
    rewrite inject_Z_mult. simpl. apply Qmult_le_compat_r; [exact H|discriminate]. }
  apply Qle_shift_div_r; [reflexivity|].
  replace (inject_Z m * inject_Z (10 ^ 2))%Q with (inject_Z (m * 100)) by
    (rewrite inject_Z_mult; reflexivity).
  rewrite <- Zle_Qle. exact H0.
Qed.

(** With a non-negative bankroll and a whole-dollar, non-negative
    [max_position_usd], [size] never returns a negative position nor one
    above the cap: [0 <= position_size_usd <= max_position_usd], rounding to
    cents included. *)
Theorem size_position_within_cap (cfg : Config.SuiteConfig) (s : Models.Signal) (bankroll : Q)
    (m : Z) :
  (0 <= bankroll)%Q ->
  (Config.max_position_usd cfg == inject_Z m)%Q -> (0 <= m)%Z ->
  (0 <= Models.position_size_usd (RiskExecutionAgent.size cfg s bankroll)
     <= Config.max_position_usd cfg)%Q.
Proof.
  intros Hb Hm Hm0.
  assert (HM : (0 <= Config.max_position_usd cfg)%Q).
  { rewrite Hm. change 0%Q with (inject_Z 0). rewrite <- Zle_Qle. exact Hm0. }
  unfold RiskExecutionAgent.size.
  destruct (RiskExecutionAgent.side_prob_price s) as [p mp].
  destruct (Qle_bool mp 0 || Qle_bool 1 mp).
  - simpl. split; [apply Qle_refl|exact HM].
  - simpl. rewrite py_min_Qmin, py_max_Qmax.
    set (a := Qmax 0 _).
    assert (Ha : (0 <= a)%Q) by apply Q.le_max_l.
    set (x := Qmin (a * bankroll) (Config.max_position_usd cfg)).
    assert (Hx0 : (0 <= x)%Q).
    { apply Q.min_glb; [apply Qmult_le_0_compat; assumption|exact HM]. }
    assert (HxM : (x <= inject_Z m)%Q).
    { rewrite <- Hm. apply Q.le_min_r. }
    split.
    + apply round2_nonneg. exact Hx0.
    + rewrite Hm. apply round2_le_whole. exact HxM.
Qed.

Lemma size_position_within_cap_witness :
  (0 <= Models.position_size_usd (RiskExecutionAgent.size Config.default Fixtures.sig_even 100000)
     <= Config.max_position_usd Config.default)%Q.
Proof.
  apply (size_position_within_cap Config.default Fixtures.sig_even 100000 500).
  - discriminate.
  - reflexivity.
  - lia.
Defined.

(** ** Orderbook scanner: parsing, emitted signals, pagination *)

(** [_parse_orderbook] returns no snapshot exactly when both the YES and the
    NO side of the book are empty.  Otherwise the snapshot's spread is
    [synthetic_yes_ask - best_yes_bid]; the synthetic ask is
    [100 - best_no_bid] when that bid is positive and 100 otherwise; and an
    empty side has best bid 0. *)
Theorem parse_orderbook_cases (tk raw ob ys ns : json) :
  Json.get raw "orderbook" raw = Ok ob ->
  Json.get ob "yes" (JArr []) = Ok ys ->
  Json.get ob "no" (JArr []) = Ok ns ->
  (OrderbookAgent.parse_orderbook tk raw = Ok None <->
     Json.truthy ys = false /\ Json.truthy ns = false) /\
  (forall snap, OrderbookAgent.parse_orderbook tk raw = Ok (Some snap) ->
     Snapshot.spread_cents snap = (Snapshot.synthetic_yes_ask snap - Snapshot.best_yes_bid snap)%Q /\
     ((0 < Snapshot.best_no_bid snap)%Q ->
        Snapshot.synthetic_yes_ask snap = (100 - Snapshot.best_no_bid snap)%Q) /\
     ((Snapshot.best_no_bid snap <= 0)%Q -> Snapshot.synthetic_yes_ask snap = 100%Q) /\
     (Json.truthy ys = false -> Snapshot.best_yes_bid snap = 0%Q) /\
     (Json.truthy ns = false -> Snapshot.best_no_bid snap = 0%Q)).
Proof.
  intros Ho Hy Hn. split.
  - unfold OrderbookAgent.parse_orderbook, bind. rewrite Ho, Hy, Hn.
    destruct (Json.truthy ys), (Json.truthy ns); simpl; split; intro H;
      try (destruct H; discriminate); try (split; reflexivity); try reflexivity;
      repeat match type of H with
      | context [match ?m with Ok _ => _ | Raised _ => _ end] => destruct m
      end; discriminate.
  - intros snap H. pose proof (parse_orderbook_shape tk raw snap H) as (H1 & H2 & H3).
    split; [exact H1|split; [exact H2|split; [exact H3|]]].
    unfold OrderbookAgent.parse_orderbook, bind in H. rewrite Ho, Hy, Hn in H.
    split; intro Ht.
    + destruct (negb (Json.truthy ys) && negb (Json.truthy ns)); [discriminate|].
      unfold OrderbookAgent.best_bid at 1 in H. rewrite Ht in H.
      destruct (OrderbookAgent.best_bid ns) as [n|]; [|discriminate].
      destruct (Json.num n) as [nq|]; [|discriminate].
      injection H as <-. reflexivity.
    + destruct (negb (Json.truthy ys) && negb (Json.truthy ns)); [discriminate|].
      destruct (OrderbookAgent.best_bid ys) as [y|]; [|discriminate].
      unfold OrderbookAgent.best_bid in H. rewrite Ht in H. simpl in H.
      destruct (Json.num y) as [yq|]; [|discriminate].
      injection H as <-. reflexivity.
Qed.

Lemma parse_orderbook_cases_witness :
  (OrderbookAgent.parse_orderbook (JStr "T") Fixtures.book_no_yes = Ok None <->
     Json.truthy (JArr []) = false /\ Json.truthy (JArr [JArr [JNum 50; JNum 10]]) = false) /\
  (forall snap, OrderbookAgent.parse_orderbook (JStr "T") Fixtures.book_no_yes = Ok (Some snap) ->
     Snapshot.spread_cents snap = (Snapshot.synthetic_yes_ask snap - Snapshot.best_yes_bid snap)%Q /\
     ((0 < Snapshot.best_no_bid snap)%Q ->
        Snapshot.synthetic_yes_ask snap = (100 - Snapshot.best_no_bid snap)%Q) /\
     ((Snapshot.best_no_bid snap <= 0)%Q -> Snapshot.synthetic_yes_ask snap = 100%Q) /\
     (Json.truthy (JArr []) = false -> Snapshot.best_yes_bid snap = 0%Q) /\
     (Json.truthy (JArr [JArr [JNum 50; JNum 10]]) = false -> Snapshot.best_no_bid snap = 0%Q)).
Proof.
  apply (parse_orderbook_cases (JStr "T") Fixtures.book_no_yes
           (JObj [("yes", JArr []); ("no", JArr [JArr [JNum 50; JNum 10]])]%string)
           (JArr []) (JArr [JArr [JNum 50; JNum 10]])); vm_compute; reflexivity.
Defined.

Lemma confidence_in_unit (spread thr : Q) :
  (0 <= thr)%Q -> (thr < spread)%Q -> (0 < Py.min (spread / 10) 1 <= 1)%Q.
Proof.
  intros H0 H1. rewrite py_min_Qmin. split.
  - apply Q.min_glb_lt; [|reflexivity].
    apply Qlt_shift_div_l; [reflexivity|]. rewrite Qmult_0_l. lra.
  - apply Q.le_min_r.
Qed.

(** Every signal [scan_market] emits comes from a parsed snapshot whose
    spread exceeds the threshold; it is an ORDERBOOK signal on the scanned
    ticker, on the YES side; and when the threshold is non-negative the
    snapshot [has_liquidity_void] and the confidence lies in (0, 1]. *)
Theorem scan_market_signal_has_void (cfg : Config.SuiteConfig) (tk raw : json) (sg : Models.Signal) :
  OrderbookAgent.scan_market cfg tk (Ok raw) = Ok (Some sg) ->
  exists snap,
    OrderbookAgent.parse_orderbook tk raw = Ok (Some snap) /\
    (inject_Z (Config.spread_threshold_cents cfg) < Snapshot.spread_cents snap)%Q /\
    Models.source sg = Models.ORDERBOOK /\ Models.side sg = Models.YES /\ Models.ticker sg = tk /\
    ((0 <= Config.spread_threshold_cents cfg)%Z ->
       Snapshot.has_liquidity_void snap = true /\ (0 < Models.confidence sg <= 1)%Q).
Proof.
  intro H. unfold OrderbookAgent.scan_market, bind in H.
  destruct (OrderbookAgent.parse_orderbook tk raw) as [[snap|]|]; try discriminate.
  destruct (Qle_bool _ _) eqn:Hq; [discriminate|].
  apply Qle_bool_false in Hq. injection H as <-.
  exists snap. split; [reflexivity|]. split; [exact Hq|].
  split; [reflexivity|]. split; [reflexivity|]. split; [reflexivity|].
  intro Ht. assert (Ht' : (0 <= inject_Z (Config.spread_threshold_cents cfg))%Q).
  { change 0%Q with (inject_Z 0). rewrite <- Zle_Qle. exact Ht. }
  split.
  - unfold Snapshot.has_liquidity_void. apply ltb_spec. lra.
  - exact (confidence_in_unit _ _ Ht' Hq).
Qed.

Lemma scan_market_signal_has_void_witness :
  exists snap,
    OrderbookAgent.parse_orderbook (JStr "T") Fixtures.book_void = Ok (Some snap) /\
    (inject_Z (Config.spread_threshold_cents Config.default) < Snapshot.spread_cents snap)%Q /\
    Models.source (Models.mkSignal Models.ORDERBOOK (JStr "T") Models.YES (40 / 100)
       ((40 + 45) / 2 / 100) ((40 + 45) / 2 / 100 - 40 / 100)
       (Py.min (5 / 10) 1) (Models.RVoid 5 40 45)) = Models.ORDERBOOK /\
    Models.side (Models.mkSignal Models.ORDERBOOK (JStr "T") Models.YES (40 / 100)
       ((40 + 45) / 2 / 100) ((40 + 45) / 2 / 100 - 40 / 100)
       (Py.min (5 / 10) 1) (Models.RVoid 5 40 45)) = Models.YES /\
    Models.ticker (Models.mkSignal Models.ORDERBOOK (JStr "T") Models.YES (40 / 100)
       ((40 + 45) / 2 / 100) ((40 + 45) / 2 / 100 - 40 / 100)
       (Py.min (5 / 10) 1) (Models.RVoid 5 40 45)) = JStr "T" /\
    ((0 <= Config.spread_threshold_cents Config.default)%Z ->
       Snapshot.has_liquidity_void snap = true /\
       (0 < Models.confidence (Models.mkSignal Models.ORDERBOOK (JStr "T") Models.YES (40 / 100)
       ((40 + 45) / 2 / 100) ((40 + 45) / 2 / 100 - 40 / 100)
       (Py.min (5 / 10) 1) (Models.RVoid 5 40 45)) <= 1)%Q).
Proof.
  apply (scan_market_signal_has_void Config.default (JStr "T") Fixtures.book_void).
  vm_compute. reflexivity.
Defined.

Lemma scan_loop_batch_sizes (cfg : Config.SuiteConfig) (gm1 gm2 : json -> Z -> Outcome json)
    (gob : json -> Outcome json) (limit : Z) :
  (forall c b, (1 <= b <= Z.min 100 limit)%Z -> gm1 c b = gm2 c b) ->
  forall fuel cursor fetched signals, (0 <= fetched)%Z ->
  OrderbookAgent.scan_loop cfg gm1 gob limit fuel cursor fetched signals =
  OrderbookAgent.scan_loop cfg gm2 gob limit fuel cursor fetched signals.
Proof.
  intros Hag fuel. induction fuel as [|fuel IH]; intros cursor fetched signals Hf; [reflexivity|].
  simpl. destruct (fetched <? limit)%Z eqn:Hl; [|reflexivity].
  apply Z.ltb_lt in Hl. rewrite Hag by lia.
  unfold bind.
  destruct (gm2 cursor _) as [resp|]; [|reflexivity].
  destruct (Json.get resp "markets" _) as [markets|]; [|reflexivity].
  destruct (negb (Json.truthy markets)); [reflexivity|].
  destruct (PyJson.iter markets) as [ms|]; [|reflexivity].
  destruct (OrderbookAgent.map_outcome _ ms) as [tickers|]; [|reflexivity].
  destruct (Json.get resp "cursor" JNull) as [c|]; [|reflexivity].
  destruct (negb (Json.truthy c)); [reflexivity|].
  apply IH. lia.
Qed.

(** [scan_all_open_markets] only ever asks [get_markets] for a batch of 1
    to [min(100, limit)] markets: two clients that agree on those requests
    give the same scan.  With [limit <= 0] it makes no request at all and
    returns no signal. *)
Theorem scan_all_open_markets_batches (cfg : Config.SuiteConfig)
    (gm1 gm2 : json -> Z -> Outcome json) (gob : json -> Outcome json) (limit : Z) :
  ((forall c b, (1 <= b <= Z.min 100 limit)%Z -> gm1 c b = gm2 c b) ->
   OrderbookAgent.scan_all_open_markets cfg gm1 gob limit =
   OrderbookAgent.scan_all_open_markets cfg gm2 gob limit) /\
  ((limit <= 0)%Z -> OrderbookAgent.scan_all_open_markets cfg gm1 gob limit = Ok []).
Proof.
  split.
  - intro Hag. unfold OrderbookAgent.scan_all_open_markets.
    apply scan_loop_batch_sizes; [exact Hag|lia].
  - intro Hl. unfold OrderbookAgent.scan_all_open_markets. simpl.
    replace (0 <? limit)%Z with false by (symmetry; apply Z.ltb_ge; lia). reflexivity.
Qed.

Lemma scan_all_open_markets_batches_witness :
  OrderbookAgent.scan_all_open_markets Config.default (fun _ _ => Raised TransportError)
    (fun _ => Raised TransportError) 0 = Ok [].
Proof.
  apply (proj2 (scan_all_open_markets_batches Config.default (fun _ _ => Raised TransportError)
                  (fun _ _ => Raised TransportError) (fun _ => Raised TransportError) 0)).
  lia.
Defined.

Lemma collect_from_scan (cfg : Config.SuiteConfig) (gob : json -> Outcome json) (tickers : list json) :
  Forall (fun s => exists t raw, gob t = Ok raw /\
                     OrderbookAgent.scan_market cfg t (Ok raw) = Ok (Some s))
    (OrderbookAgent.collect (map (fun t => OrderbookAgent.scan_market cfg t (gob t)) tickers)).
Proof.
  induction tickers as [|t rest IH]; [constructor|].
  simpl. destruct (gob t) as [raw|e] eqn:Eg.
  - destruct (OrderbookAgent.scan_market cfg t (Ok raw)) as [[s|]|] eqn:Es; try exact IH.
    constructor; [|exact IH]. exists t, raw. split; assumption.
  - exact IH.
Qed.

(** Every signal returned by [scan_all_open_markets] is the signal
    [scan_market] emits for one of the listed tickers on the orderbook the
    client returned for it; a ticker whose orderbook fetch failed
    contributes nothing. *)
Theorem scan_all_open_markets_signals (cfg : Config.SuiteConfig) (gm : json -> Z -> Outcome json)
    (gob : json -> Outcome json) (limit : Z) (sigs : list Models.Signal) :
  OrderbookAgent.scan_all_open_markets cfg gm gob limit = Ok sigs ->
  Forall (fun s => exists t raw, gob t = Ok raw /\
                     OrderbookAgent.scan_market cfg t (Ok raw) = Ok (Some s)) sigs.
Proof.
  unfold OrderbookAgent.scan_all_open_markets.
  assert (Hg : forall fuel cursor fetched acc out,
     Forall (fun s => exists t raw, gob t = Ok raw /\
                        OrderbookAgent.scan_market cfg t (Ok raw) = Ok (Some s)) acc ->
     OrderbookAgent.scan_loop cfg gm gob limit fuel cursor fetched acc = Ok out ->
     Forall (fun s => exists t raw, gob t = Ok raw /\
                        OrderbookAgent.scan_market cfg t (Ok raw) = Ok (Some s)) out).
  { intro fuel. induction fuel as [|fuel IH]; intros cursor fetched acc out Hacc H.
    - injection H as <-. exact Hacc.
    - simpl in H. destruct (fetched <? limit)%Z; [|injection H as <-; exact Hacc].
      unfold bind in H.
      destruct (gm cursor _) as [resp|]; [|discriminate].
      destruct (Json.get resp "markets" _) as [markets|]; [|discriminate].
      destruct (negb (Json.truthy markets)); [injection H as <-; exact Hacc|].
      destruct (PyJson.iter markets) as [ms|]; [|discriminate].
      destruct (OrderbookAgent.map_outcome _ ms) as [tickers|]; [|discriminate].
      pose proof (proj2 (Forall_app _ acc _) (conj Hacc (collect_from_scan cfg gob tickers))) as Ha.
      destruct (Json.get resp "cursor" JNull) as [c|]; [|discriminate].
      destruct (negb (Json.truthy c)); [injection H as <-; exact Ha|].
      exact (IH _ _ _ _ Ha H). }
  intro H. exact (Hg _ _ _ _ _ (Forall_nil _) H).
Qed.

Lemma scan_all_open_markets_signals_witness :
  exists sigs,
    OrderbookAgent.scan_all_open_markets Config.default
      (fun _ _ => Ok (JObj [("markets", JArr [JObj [("ticker", JStr "T")]])]%string))
      (fun _ => Ok Fixtures.book_void) 200 = Ok sigs /\
    Forall (fun s => exists t raw, Ok Fixtures.book_void = Ok raw /\
              OrderbookAgent.scan_market Config.default t (Ok raw) = Ok (Some s)) sigs.
Proof.
  eexists. split; [vm_compute; reflexivity|].
  apply (scan_all_open_markets_signals Config.default
           (fun _ _ => Ok (JObj [("markets", JArr [JObj [("ticker", JStr "T")]])]%string))
           (fun _ => Ok Fixtures.book_void) 200).
  vm_compute. reflexivity.
Defined.

(** ** Arbitrage signals *)

Lemma scan_pair_shape (cfg : Config.SuiteConfig) (km em : json) (sg : Models.Signal) :
  ArbitrageAgent.scan_pair cfg km em = Ok (Some sg) ->
  Models.source sg = Models.ARBITRAGE /\
  (0 < Models.implied_prob sg < 1)%Q /\
  (0 < Models.edge sg)%Q /\
  (Models.edge sg == match Models.side sg with
                     | Models.YES => Models.estimated_fair_prob sg - Models.implied_prob sg
                     | Models.NO => Models.estimated_fair_prob sg - (1 - Models.implied_prob sg)
                     end)%Q /\
  (Qmin (Config.kelly_edge_min cfg) 1 <= Models.confidence sg <= 1)%Q.
Proof.
  unfold ArbitrageAgent.scan_pair, bind. intro H.
  split_outcomes H.
  all: injection H as <-.
  all: match goal with
       | E : (if Py.ltb 0 ?d then _ else _) = Some _ |- _ =>
           destruct (Py.ltb 0 d) eqn:Hpos; [|destruct (Py.ltb d 0) eqn:Hneg];
           try discriminate E; injection E; intros; subst; try discriminate
       end.
  all: match goal with
       | E : (Qle_bool _ 0 || Qle_bool 1 _) = false |- _ =>
           apply orb_false_iff in E; destruct E as [E1 E2];
           apply Qle_bool_false in E1; apply Qle_bool_false in E2
       end.
  all: match goal with
       | E : Py.ltb (ArbitrageAgent.kelly_criterion _ _) _ = false |- _ => apply ltb_false in E
       end.
  all: cbn [Models.source Models.implied_prob Models.edge Models.side
            Models.estimated_fair_prob Models.confidence].
  all: rewrite py_min_Qmin.
  all: split; [reflexivity|].
  all: split; [lra|].
  all: split; [|split; [|split]].
  all: try (apply Q.min_le_compat_r; assumption).
  all: try apply Q.le_min_r.
  all: try (apply ltb_spec in Hpos; lra).
  all: match goal with
       | E : Some (_, _, _, Qabs ?d) = Some (_, _, _, ?x) |- _ => change x with (Qabs d)
       end.
  all: apply ltb_spec in Hneg; rewrite Qabs_neg by lra; lra.
Qed.

Lemma scan_pairs_shape (cfg : Config.SuiteConfig) (pairs : list (json * json))
    (sigs : list Models.Signal) :
  ArbitrageAgent.scan_pairs cfg pairs = Ok sigs ->
  Forall (fun sg => exists km em, In (km, em) pairs /\
            ArbitrageAgent.scan_pair cfg km em = Ok (Some sg)) sigs.
Proof.
  revert sigs. induction pairs as [|[km em] rest IH]; intros sigs H.
  - injection H as <-. constructor.
  - simpl in H. unfold bind in H.
    destruct (ArbitrageAgent.scan_pair cfg km em) as [[sg|]|] eqn:Hp; [| |discriminate];
    destruct (ArbitrageAgent.scan_pairs cfg rest) as [ss|] eqn:Hr; try discriminate;
    injection H as <-.
    + constructor; [exists km, em; split; [left; reflexivity|exact Hp]|].
      eapply Forall_impl; [|exact (IH ss eq_refl)].
      intros s [k [e [Hi He]]]. exists k, e. split; [right; exact Hi|exact He].
    + eapply Forall_impl; [|exact (IH ss eq_refl)].
      intros s [k [e [Hi He]]]. exists k, e. split; [right; exact Hi|exact He].
Qed.

(** [ArbitrageAgent.scan]: every signal it returns comes from the
    arbitrage source, has an exchange probability strictly between 0 and 1
    and a positive edge equal to the fair probability of the side bought
    minus that side's price, and a confidence of at most 1 and at least
    [min(kelly_edge_min, 1)]. *)
Theorem scan_arbitrage_signal_bounds (cfg : Config.SuiteConfig) (kalshi_resp : Outcome json)
    (ext : json) (sigs : list Models.Signal) :
  ArbitrageAgent.scan cfg kalshi_resp ext = Ok sigs ->
  Forall (fun sg =>
    Models.source sg = Models.ARBITRAGE /\
    (0 < Models.implied_prob sg < 1)%Q /\
    (0 < Models.edge sg)%Q /\
    (Models.edge sg == match Models.side sg with
                       | Models.YES => Models.estimated_fair_prob sg - Models.implied_prob sg
                       | Models.NO => Models.estimated_fair_prob sg - (1 - Models.implied_prob sg)
                       end)%Q /\
    (Qmin (Config.kelly_edge_min cfg) 1 <= Models.confidence sg <= 1)%Q) sigs.
Proof.
  unfold ArbitrageAgent.scan, bind. intro H.
  destruct kalshi_resp as [resp|]; [|discriminate].
  destruct (Json.get resp _ _) as [kms|]; [|discriminate].
  destruct (negb (Json.truthy ext)); [injection H as <-; constructor|].
  destruct (PyJson.iter kms) as [l|]; [|discriminate].
  destruct (ArbitrageAgent.match_markets l ext) as [pairs|]; [|discriminate].
  eapply Forall_impl; [|exact (scan_pairs_shape cfg pairs sigs H)].
  intros sg [km [em [_ Hp]]]. exact (scan_pair_shape cfg km em sg Hp).
Qed.

Lemma scan_arbitrage_signal_bounds_witness :
  exists sigs,
    ArbitrageAgent.scan Config.default
      (Ok (JObj [("markets", JArr [Fixtures.kalshi_market])]%string))
      (JArr [Fixtures.external_market]) = Ok sigs /\
    List.length sigs = 1%nat /\
    Forall (fun sg =>
      Models.source sg = Models.ARBITRAGE /\
      (0 < Models.implied_prob sg < 1)%Q /\
      (0 < Models.edge sg)%Q /\
      (Models.edge sg == match Models.side sg with
                         | Models.YES => Models.estimated_fair_prob sg - Models.implied_prob sg
                         | Models.NO => Models.estimated_fair_prob sg - (1 - Models.implied_prob sg)
                         end)%Q /\
      (Qmin (Config.kelly_edge_min Config.default) 1 <= Models.confidence sg <= 1)%Q) sigs.
Proof.
  exists (match ArbitrageAgent.scan Config.default
             (Ok (JObj [("markets", JArr [Fixtures.kalshi_market])]%string))
             (JArr [Fixtures.external_market]) with Ok l => l | Raised _ => [] end).
  assert (H : ArbitrageAgent.scan Config.default
             (Ok (JObj [("markets", JArr [Fixtures.kalshi_market])]%string))
             (JArr [Fixtures.external_market]) =
           Ok (match ArbitrageAgent.scan Config.default
             (Ok (JObj [("markets", JArr [Fixtures.kalshi_market])]%string))
             (JArr [Fixtures.external_market]) with Ok l => l | Raised _ => [] end))
    by (vm_compute; reflexivity).
  split; [exact H|]. split; [vm_compute; reflexivity|].
  exact (scan_arbitrage_signal_bounds Config.default _ _ _ H).
Defined.

(** ** Cross-platform matching *)

Lemma first_match_found (kt : list string) (ems : list json) (em : json) :
  ArbitrageAgent.first_match kt ems = Ok (Some em) ->
  exists pre post, ems = pre ++ em :: post /\
    Forall (fun e => exists et,
              (t <- Json.get e "title" (JStr EmptyString) ;;
               q <- Json.get e "question" t ;; ArbitrageAgent.tokens q) = Ok et /\
              (ArbitrageAgent.overlap_size kt et < 3)%nat) pre /\
    exists et,
      (t <- Json.get em "title" (JStr EmptyString) ;;
       q <- Json.get em "question" t ;; ArbitrageAgent.tokens q) = Ok et /\
      (3 <= ArbitrageAgent.overlap_size kt et)%nat.
Proof.
  induction ems as [|e rest IH]; intro H; [discriminate|].
  cbn [ArbitrageAgent.first_match] in H. unfold bind in H |- *.
  destruct (Json.get e "title" _) as [t|] eqn:Ht; [|discriminate].
  destruct (Json.get e "question" t) as [q|] eqn:Hq; [|discriminate].
  destruct (ArbitrageAgent.tokens q) as [et|] eqn:Hk; [|discriminate].
  destruct (Nat.leb 3 (ArbitrageAgent.overlap_size kt et)) eqn:Hl.
  - injection H as <-. exists [], rest. split; [reflexivity|]. split; [constructor|].
    exists et. rewrite Ht, Hq, Hk. split; [reflexivity|]. now apply Nat.leb_le.
  - destruct (IH H) as [pre [post [-> [Hpre Hem]]]].
    exists (e :: pre), post. split; [reflexivity|]. split; [|exact Hem].
    constructor; [|exact Hpre].
    exists et. rewrite Ht, Hq, Hk. split; [reflexivity|]. now apply Nat.leb_gt.
Qed.

(** [ArbitrageAgent._match_markets]: it returns at most one pair per
    exchange market. Each pair joins an exchange market of the input to the
    first external market whose title (its [question], else its [title])
    shares at least three tokens with the exchange market's title: every
    external market before it in the list shares fewer than three. *)
Theorem match_markets_pairs (kms : list json) (ext : json) (pairs : list (json * json)) :
  ArbitrageAgent.match_markets kms ext = Ok pairs ->
  (List.length pairs <= List.length kms)%nat /\
  Forall (fun p =>
    In (fst p) kms /\
    exists kt ems pre post,
      (t <- Json.get (fst p) "title" (JStr EmptyString) ;; ArbitrageAgent.tokens t) = Ok kt /\
      PyJson.iter ext = Ok ems /\ ems = pre ++ snd p :: post /\
      Forall (fun e => exists et,
                (t <- Json.get e "title" (JStr EmptyString) ;;
                 q <- Json.get e "question" t ;; ArbitrageAgent.tokens q) = Ok et /\
                (ArbitrageAgent.overlap_size kt et < 3)%nat) pre /\
      exists et,
        (t <- Json.get (snd p) "title" (JStr EmptyString) ;;
         q <- Json.get (snd p) "question" t ;; ArbitrageAgent.tokens q) = Ok et /\
        (3 <= ArbitrageAgent.overlap_size kt et)%nat) pairs.
Proof.
  revert pairs. induction kms as [|km rest IH]; intros pairs H.
  - injection H as <-. split; [constructor|constructor].
  - simpl in H. unfold bind in H.
    destruct (Json.get km "title" _) as [t|] eqn:Ht; [|discriminate].
    destruct (ArbitrageAgent.tokens t) as [kt|] eqn:Hk; [|discriminate].
    assert (Hw : forall ps, Forall (fun p =>
      In (fst p) rest /\
      exists kt ems pre post,
        (t <- Json.get (fst p) "title" (JStr EmptyString) ;; ArbitrageAgent.tokens t) = Ok kt /\
        PyJson.iter ext = Ok ems /\ ems = pre ++ snd p :: post /\
        Forall (fun e => exists et,
                  (t <- Json.get e "title" (JStr EmptyString) ;;
                   q <- Json.get e "question" t ;; ArbitrageAgent.tokens q) = Ok et /\
                  (ArbitrageAgent.overlap_size kt et < 3)%nat) pre /\
        exists et,
          (t <- Json.get (snd p) "title" (JStr EmptyString) ;;
           q <- Json.get (snd p) "question" t ;; ArbitrageAgent.tokens q) = Ok et /\
          (3 <= ArbitrageAgent.overlap_size kt et)%nat) ps ->
      Forall (fun p =>
      In (fst p) (km :: rest) /\
      exists kt ems pre post,
        (t <- Json.get (fst p) "title" (JStr EmptyString) ;; ArbitrageAgent.tokens t) = Ok kt /\
        PyJson.iter ext = Ok ems /\ ems = pre ++ snd p :: post /\
        Forall (fun e => exists et,
                  (t <- Json.get e "title" (JStr EmptyString) ;;
                   q <- Json.get e "question" t ;; ArbitrageAgent.tokens q) = Ok et /\
                  (ArbitrageAgent.overlap_size kt et < 3)%nat) pre /\
        exists et,
          (t <- Json.get (snd p) "title" (JStr EmptyString) ;;
           q <- Json.get (snd p) "question" t ;; ArbitrageAgent.tokens q) = Ok et /\
          (3 <= ArbitrageAgent.overlap_size kt et)%nat) ps).
    { intros ps Hps. eapply Forall_impl; [|exact Hps].
      intros p [Hi Hp]. split; [right; exact Hi|exact Hp]. }
    destruct kt as [|w ws].
    + destruct (ArbitrageAgent.match_markets rest ext) as [ps|] eqn:Hr; [|discriminate].
      injection H as <-. destruct (IH ps eq_refl) as [Hl Hf].
      split; [simpl; lia|exact (Hw ps Hf)].
    + destruct (PyJson.iter ext) as [ems|] eqn:He; [|discriminate].
      destruct (ArbitrageAgent.first_match (w :: ws) ems) as [[em|]|] eqn:Hm; [| |discriminate];
      destruct (ArbitrageAgent.match_markets rest ext) as [ps|] eqn:Hr; try discriminate;
      injection H as <-; destruct (IH ps eq_refl) as [Hl Hf].
      * split; [simpl; lia|].
        constructor; [|exact (Hw ps Hf)].
        split; [left; reflexivity|].
        destruct (first_match_found _ _ _ Hm) as [pre [post [Heq [Hpre Hem]]]].
        exists (w :: ws), ems, pre, post. cbn [fst snd].
        rewrite Ht. split; [exact Hk|]. split; [reflexivity|].
        split; [exact Heq|]. split; [exact Hpre|exact Hem].
      * split; [simpl; lia|exact (Hw ps Hf)].
Qed.

Lemma match_markets_pairs_witness :
  exists pairs,
    ArbitrageAgent.match_markets [Fixtures.kalshi_market] (JArr [Fixtures.external_market])
      = Ok pairs /\
    pairs = [(Fixtures.kalshi_market, Fixtures.external_market)] /\
    (List.length pairs <= 1)%nat.
Proof.
  exists [(Fixtures.kalshi_market, Fixtures.external_market)].
  assert (H : ArbitrageAgent.match_markets [Fixtures.kalshi_market]
                (JArr [Fixtures.external_market])
              = Ok [(Fixtures.kalshi_market, Fixtures.external_market)])
    by (vm_compute; reflexivity).
  split; [exact H|]. split; [reflexivity|].
  exact (proj1 (match_markets_pairs _ _ _ H)).
Defined.

(** ** Keyword resolution *)

Lemma py_lower_ok (v : json) (s : string) :
  NLPAgent.py_lower v = Ok s -> exists t, v = JStr t /\ s = Str.lower t.
Proof.
  destruct v; cbn; intro H; try discriminate. injection H as <-. eauto.
Qed.

Lemma ticker_matches_true (keyword m : json) :
  NLPAgent.ticker_matches keyword m = Ok true ->
  exists kw, keyword = JStr kw /\
    ((exists tk, Json.get m "ticker" (JStr EmptyString) = Ok (JStr tk) /\
                 Str.contains (Str.lower kw) (Str.lower tk) = true) \/
     (exists ti, Json.get m "title" (JStr EmptyString) = Ok (JStr ti) /\
                 Str.contains (Str.lower kw) (Str.lower ti) = true)).
Proof.
  unfold NLPAgent.ticker_matches, bind. intro H.
  destruct (NLPAgent.py_lower keyword) as [kw|] eqn:Hk; [|discriminate].
  destruct (py_lower_ok _ _ Hk) as [k [-> ->]].
  exists k. split; [reflexivity|].
  destruct (Json.get m "ticker" _) as [t|] eqn:Ht; [|discriminate].
  destruct (NLPAgent.py_lower t) as [ls|] eqn:Hl; [|discriminate].
  destruct (py_lower_ok _ _ Hl) as [tk [-> ->]].
  destruct (Str.contains _ _) eqn:Hc.
  - left. exists tk. split; [reflexivity|exact Hc].
  - right. cbn in H.
    destruct (Json.get m "title" _) as [ti|] eqn:Hti; [|discriminate].
    destruct (NLPAgent.py_lower ti) as [lti|] eqn:Hl'; [|discriminate].
    destruct (py_lower_ok _ _ Hl') as [x [-> ->]].
    injection H as Hc'. exists x. split; [reflexivity|exact Hc'].
Qed.

Lemma matching_tickers_in (keyword : json) (ms ts : list json) (t : json) :
  NLPAgent.matching_tickers keyword ms = Ok ts -> In t ts ->
  exists m, In m ms /\ Json.getitem m "ticker" = Ok t /\
            NLPAgent.ticker_matches keyword m = Ok true.
Proof.
  revert ts. induction ms as [|m rest IH]; intros ts H Hin.
  - injection H as <-. destruct Hin.
  - cbn [NLPAgent.matching_tickers] in H. unfold bind in H.
    destruct (NLPAgent.ticker_matches keyword m) as [[|]|] eqn:Hm; try discriminate.
    + destruct (Json.getitem m "ticker") as [tk|] eqn:Ht; [|discriminate].
      destruct (NLPAgent.matching_tickers keyword rest) as [ts'|] eqn:Hr; [|discriminate].
      injection H as <-. destruct Hin as [<-|Hin].
      * exists m. split; [left; reflexivity|]. split; [exact Ht|exact Hm].
      * destruct (IH ts' eq_refl Hin) as [m' [Hi Hm']]. exists m'. split; [right; exact Hi|exact Hm'].
    + destruct (IH ts H Hin) as [m' [Hi Hm']]. exists m'. split; [right; exact Hi|exact Hm'].
Qed.

(** [NLPAgent.resolve_tickers]: every ticker it returns is the [ticker] of
    one of the markets of the response, and the keyword is a string that,
    lower-cased, occurs in that market's lower-cased ticker or else in its
    lower-cased title. *)
Theorem resolve_tickers_sound (keyword : json) (resp : Outcome json) (t : json) :
  In t (NLPAgent.resolve_tickers keyword resp) ->
  exists r markets ms m kw,
    resp = Ok r /\ Json.get r "markets" (JArr []) = Ok markets /\
    PyJson.iter markets = Ok ms /\ In m ms /\ Json.getitem m "ticker" = Ok t /\
    keyword = JStr kw /\
    ((exists tk, Json.get m "ticker" (JStr EmptyString) = Ok (JStr tk) /\
                 Str.contains (Str.lower kw) (Str.lower tk) = true) \/
     (exists ti, Json.get m "title" (JStr EmptyString) = Ok (JStr ti) /\
                 Str.contains (Str.lower kw) (Str.lower ti) = true)).
Proof.
  unfold NLPAgent.resolve_tickers, bind. intro H.
  destruct resp as [r|]; [|destruct H].
  destruct (Json.get r "markets" _) as [markets|] eqn:Hg; [|destruct H].
  destruct (PyJson.iter markets) as [ms|] eqn:Hi; [|destruct H].
  destruct (NLPAgent.matching_tickers keyword ms) as [ts|] eqn:Hm; [|destruct H].
  destruct (matching_tickers_in _ _ _ _ Hm H) as [m [Hin [Ht Hmt]]].
  destruct (ticker_matches_true _ _ Hmt) as [kw [Hk Hc]].
  exists r, markets, ms, m, kw. repeat (split; [first [reflexivity|assumption]|]). exact Hc.
Qed.

Lemma resolve_tickers_sound_witness :
  In (JStr "FED-JUNE")
     (NLPAgent.resolve_tickers (JStr "Federal")
        (Ok (JObj [("markets", JArr [Fixtures.kalshi_market])]%string))) /\
  exists r markets ms m kw,
    Ok (JObj [("markets", JArr [Fixtures.kalshi_market])]%string) = Ok r /\
    Json.get r "markets" (JArr []) = Ok markets /\
    PyJson.iter markets = Ok ms /\ In m ms /\ Json.getitem m "ticker" = Ok (JStr "FED-JUNE") /\
    JStr "Federal" = JStr kw /\
    ((exists tk, Json.get m "ticker" (JStr EmptyString) = Ok (JStr tk) /\
                 Str.contains (Str.lower kw) (Str.lower tk) = true) \/
     (exists ti, Json.get m "title" (JStr EmptyString) = Ok (JStr ti) /\
                 Str.contains (Str.lower kw) (Str.lower ti) = true)).
Proof.
  assert (H : In (JStr "FED-JUNE")
     (NLPAgent.resolve_tickers (JStr "Federal")
        (Ok (JObj [("markets", JArr [Fixtures.kalshi_market])]%string))))
    by (vm_compute; left; reflexivity).
  split; [exact H|].
  exact (resolve_tickers_sound _ _ _ H).
Defined.

(** ** News signals *)

Lemma run_feeds_forall (P : Models.Signal -> Prop) cfg loads llm resolve feeds sigs :
  (forall name raw, Forall P (NLPAgent.signals_of_raw cfg resolve name raw)) ->
  NLPAgent.run_feeds cfg loads llm resolve feeds = Ok sigs ->
  Forall P sigs.
Proof.
  intro HP. revert sigs. induction feeds as [|[name text] rest IH]; intros sigs H.
  - injection H as <-. constructor.
  - simpl in H. unfold bind in H.
    destruct (NLPAgent.analyze_headline _ _) as [[raws logs]|]; [|discriminate].
    destruct (NLPAgent.run_feeds cfg loads llm resolve rest) as [later|] eqn:Hr; [|discriminate].
    injection H as <-. apply Forall_app. split.
    + apply Forall_forall. intros x Hx. apply in_flat_map in Hx.
      destruct Hx as [raw [_ Hx]].
      exact (proj1 (Forall_forall _ _) (HP name raw) x Hx).
    + now apply IH.
Qed.

Lemma signals_of_raw_shape (cfg : Config.SuiteConfig) (resolve : json -> list json)
    (name : string) (raw : NLPAgent.NLPSignalRaw) :
  Forall (fun s =>
    Models.source s = Models.NLP /\ (Models.implied_prob s == 1 # 2)%Q /\
    (Config.nlp_prob_shift_min cfg <= Models.edge s)%Q /\
    (Models.side s = Models.YES <-> (1 # 2 < Models.estimated_fair_prob s)%Q) /\
    exists kw, In (Models.ticker s) (resolve kw))
    (NLPAgent.signals_of_raw cfg resolve name raw).
Proof.
  unfold NLPAgent.signals_of_raw.
  destruct (Py.ltb _ _) eqn:Hmin; [constructor|].
  apply ltb_false in Hmin.
  apply Forall_forall. intros x Hx. apply in_map_iff in Hx. destruct Hx as [t [<- Ht]].
  cbn [Models.source Models.side Models.implied_prob Models.estimated_fair_prob
       Models.edge Models.ticker].
  split; [reflexivity|]. split; [reflexivity|]. split; [exact Hmin|].
  split; [|exists (NLPAgent.ticker_keyword raw); exact Ht].
  destruct (Py.ltb 0 (NLPAgent.prob_shift raw)) eqn:E.
  - apply ltb_spec in E. split; [intros _; lra|reflexivity].
  - apply ltb_false in E. split; [discriminate|intro; lra].
Qed.

(** [NLPAgent.run], on answers whose numbers are finite: every signal it
    returns comes from the NLP source, has implied probability 0.5 and an
    edge of at least [nlp_prob_shift_min], is a YES signal exactly when its
    fair probability exceeds 0.5, and carries a ticker returned by
    [resolve_tickers] for some keyword.  (An item whose [prob_shift] is
    NaN, which [float()] accepts, is outside the model: the source passes
    it through the threshold test, since [abs(nan) < min] is false, and
    emits a NO signal with a NaN edge.) *)
Theorem nlp_run_signal_shape cfg loads llm resolve fetched sigs :
  NLPAgent.run cfg loads llm resolve fetched = Ok sigs ->
  Forall (fun s =>
    Models.source s = Models.NLP /\ (Models.implied_prob s == 1 # 2)%Q /\
    (Config.nlp_prob_shift_min cfg <= Models.edge s)%Q /\
    (Models.side s = Models.YES <-> (1 # 2 < Models.estimated_fair_prob s)%Q) /\
    exists kw, In (Models.ticker s) (resolve kw)) sigs.
Proof.
  unfold NLPAgent.run. apply run_feeds_forall.
  intros name raw. apply signals_of_raw_shape.
Qed.

Lemma nlp_run_signal_shape_witness :
  exists sigs,
    NLPAgent.run Config.default JsonDecode.loads
      (fun _ => Ok (Some Fixtures.llm_object_answer)) (fun _ => [JStr "CPI-24"])
      [("Reuters", Ok "CPI prints hot")]%string = Ok sigs /\
    List.length sigs = 1%nat /\
    Forall (fun s =>
      Models.source s = Models.NLP /\ (Models.implied_prob s == 1 # 2)%Q /\
      (Config.nlp_prob_shift_min Config.default <= Models.edge s)%Q /\
      (Models.side s = Models.YES <-> (1 # 2 < Models.estimated_fair_prob s)%Q) /\
      exists kw, In (Models.ticker s) ((fun _ : json => [JStr "CPI-24"]) kw)) sigs.
Proof.
  exists (match NLPAgent.run Config.default JsonDecode.loads
             (fun _ => Ok (Some Fixtures.llm_object_answer)) (fun _ => [JStr "CPI-24"])
             [("Reuters", Ok "CPI prints hot")]%string with Ok l => l | Raised _ => [] end).
  assert (H : NLPAgent.run Config.default JsonDecode.loads
             (fun _ => Ok (Some Fixtures.llm_object_answer)) (fun _ => [JStr "CPI-24"])
             [("Reuters", Ok "CPI prints hot")]%string =
           Ok (match NLPAgent.run Config.default JsonDecode.loads
             (fun _ => Ok (Some Fixtures.llm_object_answer)) (fun _ => [JStr "CPI-24"])
             [("Reuters", Ok "CPI prints hot")]%string with Ok l => l | Raised _ => [] end))
    by (vm_compute; reflexivity).
  split; [exact H|]. split; [vm_compute; reflexivity|].
  exact (nlp_run_signal_shape _ _ _ _ _ _ H).
Defined.

(** ** Feed fetching *)

Lemma take_length (n : nat) (s : string) : (String.length (NLPAgent.take n s) <= n)%nat.
Proof.
  unfold NLPAgent.take. revert s. induction n as [|n IH]; intro s; [destruct s; simpl; lia|].
  destruct s as [|c s]; simpl; [lia|]. specialize (IH s). lia.
Qed.

Lemma take_empty (n : nat) (s : string) :
  NLPAgent.take (S n) s = EmptyString <-> s = EmptyString.
Proof.
  unfold NLPAgent.take. destruct s as [|c s]; simpl; split; intro H; congruence.
Qed.

(** [NLPAgent.fetch_all_feeds]: the texts it keeps are non-empty, at most
    6000 characters long, and are the first 6000 characters of a successful
    fetch of the same feed; every feed fetched successfully with a
    non-empty text is kept. *)
Theorem fetch_all_feeds_kept (fetched : list (string * Outcome string)) :
  Forall (fun p =>
    snd p <> EmptyString /\ (String.length (snd p) <= 6000)%nat /\
    exists full, In (fst p, Ok full) fetched /\ snd p = NLPAgent.take 6000 full)
    (NLPAgent.fetch_all_feeds fetched) /\
  (forall name full, In (name, Ok full) fetched -> full <> EmptyString ->
     In (name, NLPAgent.take 6000 full) (NLPAgent.fetch_all_feeds fetched)).
Proof.
  induction fetched as [|[name [text|e]] rest [IHf IHc]].
  - split; [constructor|intros ? ? []].
  - cbn [NLPAgent.fetch_all_feeds].
    destruct (String.eqb (NLPAgent.take 6000 text) EmptyString) eqn:He.
    + apply String.eqb_eq in He. split.
      * eapply Forall_impl; [|exact IHf]. intros p [H1 [H2 [full [Hi Hf]]]].
        split; [exact H1|]. split; [exact H2|]. exists full. split; [right; exact Hi|exact Hf].
      * intros n f [Hnf|Hi] Hne.
        -- injection Hnf as <- <-. exfalso. apply Hne. exact (proj1 (take_empty _ _) He).
        -- exact (IHc n f Hi Hne).
    + apply String.eqb_neq in He. split.
      * constructor.
        -- cbn [fst snd]. split; [exact He|]. split; [apply take_length|].
           exists text. split; [left; reflexivity|reflexivity].
        -- eapply Forall_impl; [|exact IHf]. intros p [H1 [H2 [full [Hi Hf]]]].
           split; [exact H1|]. split; [exact H2|]. exists full. split; [right; exact Hi|exact Hf].
      * intros n f [Hnf|Hi] Hne.
        -- injection Hnf as <- <-. left. reflexivity.
        -- right. exact (IHc n f Hi Hne).
  - cbn [NLPAgent.fetch_all_feeds]. split.
    + eapply Forall_impl; [|exact IHf]. intros p [H1 [H2 [full [Hi Hf]]]].
      split; [exact H1|]. split; [exact H2|]. exists full. split; [right; exact Hi|exact Hf].
    + intros n f [Hnf|Hi] Hne; [discriminate|exact (IHc n f Hi Hne)].
Qed.

(** ** Parsing the items of a completion *)

(** The item loop of [NLPAgent.analyze_headline]: each item gives either
    one raw signal or one debug message, so the raw signals and the
    messages together number the items. Every message is the debug
    message for a malformed item. Every raw signal is the parse of one of
    the items, and an item that is not a JSON object is always skipped. *)
Theorem parse_items_accounting (items : list json) :
  (List.length (fst (NLPAgent.parse_items items)) +
   List.length (snd (NLPAgent.parse_items items)) = List.length items)%nat /\
  Forall (fun l => l = (DEBUG, "Skipping malformed GPT item"%string))
    (snd (NLPAgent.parse_items items)) /\
  Forall (fun r => exists item kvs, In item items /\ item = JObj kvs /\
            NLPAgent.parse_item item = Ok r)
    (fst (NLPAgent.parse_items items)).
Proof.
  induction items as [|item rest [IHl [IHd IHr]]]; [split; [reflexivity|split; constructor]|].
  cbn [NLPAgent.parse_items].
  destruct (NLPAgent.parse_items rest) as [sigs logs]. cbn [fst snd] in *.
  assert (Hw : Forall (fun r => exists it kvs, In it (item :: rest) /\ it = JObj kvs /\
                  NLPAgent.parse_item it = Ok r) sigs).
  { eapply Forall_impl; [|exact IHr]. intros r [it [kvs [Hi Hp]]].
    exists it, kvs. split; [right; exact Hi|exact Hp]. }
  destruct (NLPAgent.parse_item item) as [r|e] eqn:Hp; cbn [fst snd List.length].
  - split; [lia|]. split; [exact IHd|]. constructor; [|exact Hw].
    destruct item as [| | | | |kvs];
      try (cbn in Hp; discriminate).
    exists (JObj kvs), kvs. split; [left; reflexivity|]. split; [reflexivity|exact Hp].
  - split; [lia|]. split; [constructor; [reflexivity|exact IHd]|exact Hw].
Qed.

(** ** The package client's request loop *)

(** The retry loop of [_request]: whatever the transport answers, it sends
    the request between 1 and [retries + 1] times and sleeps between two
    sends. *)
Lemma request_from_sends_and_sleeps (transport : nat -> Outcome Response)
    (attempt : nat) (rq : World.HttpRequest) (retries : nat) (w : World.World) :
  exists n ws,
    (n <= retries)%nat /\ List.length ws = n /\ Forall (fun x => 0 <= x) ws /\
    snd (KalshiClient.request_from transport attempt rq retries w) =
      World.mkWorld (World.journal w) (World.requests w ++ repeat rq (S n))%list
                    (World.sleeps w ++ ws)%list.
Proof.
  revert attempt w. induction retries as [|retries IH]; intros attempt w.
  - exists 0%nat, []. split; [lia|]. split; [reflexivity|]. split; [constructor|].
    simpl. destruct (transport attempt) as [resp|e]; simpl; rewrite app_nil_r; reflexivity.
  - cbn [KalshiClient.request_from].
    destruct (transport attempt) as [resp|e].
    2: { exists 0%nat, []. split; [lia|]. split; [reflexivity|]. split; [constructor|].
         simpl. rewrite app_nil_r. reflexivity. }
    destruct (status_code resp =? 429) eqn:H429.
    2: { exists 0%nat, []. split; [lia|]. split; [reflexivity|]. split; [constructor|].
         simpl. rewrite app_nil_r. reflexivity. }
    destruct (KalshiClient.retry_wait (retry_after resp)) as [wait|e].
    2: { exists 0%nat, []. split; [lia|]. split; [reflexivity|]. split; [constructor|].
         simpl. rewrite app_nil_r. reflexivity. }
    destruct (wait <? 0) eqn:Hneg.
    { exists 0%nat, []. split; [lia|]. split; [reflexivity|]. split; [constructor|].
      simpl. rewrite app_nil_r. reflexivity. }
    destruct (IH (S attempt) (World.sleep wait (World.send rq w))) as [n [ws [Hn [Hl [Hf Hw]]]]].
    exists (S n), (wait :: ws). split; [lia|]. split; [simpl; lia|].
    split; [constructor; [apply Z.ltb_ge; exact Hneg|exact Hf]|].
    rewrite Hw. cbn. rewrite <- !app_assoc. reflexivity.
Qed.

(** [KalshiClient._request] ([kalshi_client/client.py]) with its signing
    step: when the key cannot sign, the call raises before anything is
    sent; with a key that signs, whatever the transport answers, a call
    sends the same request between 1 and [retries + 1] times, sleeps once
    between two consecutive sends (each sleep non-negative), and touches
    nothing else. *)
Theorem request_sends_and_sleeps (sign : Outcome unit) (transport : nat -> Outcome Response)
    (rq : World.HttpRequest) (retries : nat) (w : World.World) :
  (forall e, sign = Raised e ->
     KalshiClient.request_signed sign transport rq retries w = (Raised e, w)) /\
  (forall u, sign = Ok u ->
     exists n ws,
       (n <= retries)%nat /\ List.length ws = n /\ Forall (fun x => 0 <= x) ws /\
       snd (KalshiClient.request_signed sign transport rq retries w) =
         World.mkWorld (World.journal w) (World.requests w ++ repeat rq (S n))%list
                       (World.sleeps w ++ ws)%list).
Proof.
  split.
  - intros e ->. reflexivity.
  - intros u ->. exact (request_from_sends_and_sleeps transport 0 rq retries w).
Qed.

(** [KalshiClient._request]: only an HTTP 429 is retried. A transport
    failure propagates after one send; an answer other than 429 is passed
    to the status checks after one send, without sleeping; and a 429 whose
    [Retry-After] header does not parse as an integer raises after one
    send, without sleeping. *)
Theorem request_no_retry_cases (transport : nat -> Outcome Response)
    (attempt : nat) (rq : World.HttpRequest) (retries : nat) (w : World.World) :
  (forall e, transport attempt = Raised e ->
     KalshiClient.request_from transport attempt rq retries w = (Raised e, World.send rq w)) /\
  (forall resp, transport attempt = Ok resp -> status_code resp <> 429 ->
     KalshiClient.request_from transport attempt rq retries w =
       (KalshiClient.finish resp, World.send rq w)) /\
  (forall resp e, transport attempt = Ok resp ->
     KalshiClient.retry_wait (retry_after resp) = Raised e ->
     KalshiClient.request_from transport attempt rq retries w =
       (match retries with
        | O => KalshiClient.finish resp
        | S _ => if status_code resp =? 429 then Raised e else KalshiClient.finish resp
        end, World.send rq w)).
Proof.
  split; [|split].
  - intros e He. destruct retries; cbn; rewrite He; reflexivity.
  - intros resp Hr Hs. apply Z.eqb_neq in Hs.
    destruct retries; cbn; rewrite Hr; [reflexivity|rewrite Hs; reflexivity].
  - intros resp e Hr He. destruct retries; cbn; rewrite Hr; [reflexivity|].
    destruct (status_code resp =? 429); [rewrite He|]; reflexivity.
Qed.

Lemma request_no_retry_cases_witness :
  KalshiClient.request_from (fun _ => Raised TransportError) 0 Fixtures.get_markets_request 3
    World.empty = (Raised TransportError, World.send Fixtures.get_markets_request World.empty) /\
  KalshiClient.request_from (fun _ => Ok (mkResponse 500 None (Ok (JObj [])))) 0
    Fixtures.get_markets_request 3 World.empty =
    (KalshiClient.finish (mkResponse 500 None (Ok (JObj []))),
     World.send Fixtures.get_markets_request World.empty) /\
  KalshiClient.request_from (fun _ => Ok (mkResponse 429 (Some "soon"%string) (Ok (JObj [])))) 0
    Fixtures.get_markets_request 3 World.empty =
    (Raised ValueError, World.send Fixtures.get_markets_request World.empty).
Proof.
  split; [|split].
  - exact (proj1 (request_no_retry_cases (fun _ => Raised TransportError) 0
             Fixtures.get_markets_request 3 World.empty) TransportError eq_refl).
  - apply (proj1 (proj2 (request_no_retry_cases (fun _ => Ok (mkResponse 500 None (Ok (JObj []))))
             0 Fixtures.get_markets_request 3 World.empty))); [reflexivity|discriminate].
  - exact (proj2 (proj2 (request_no_retry_cases
             (fun _ => Ok (mkResponse 429 (Some "soon"%string) (Ok (JObj [])))) 0
             Fixtures.get_markets_request 3 World.empty))
             (mkResponse 429 (Some "soon"%string) (Ok (JObj []))) ValueError eq_refl
             ltac:(vm_compute; reflexivity)).
Defined.

(** ** The suite's exchange client *)

(** [KalshiClient._request] ([kalshi_alpha_suite/kalshi_client.py]): when
    [_ensure_auth] raises (no key configured, or a key that is not
    Ed25519), the call raises that exception and sends nothing.  Once
    signed, a call sends its request exactly once and never sleeps; it
    returns a value only for a 2xx answer, and that value is the decoded
    body; any other status, 429 included, raises the status error without
    retrying. *)
Theorem suite_request_single_shot (auth : Outcome unit) (transport : nat -> Outcome Response)
    (rq : World.HttpRequest) (w : World.World) (v : json) :
  (forall e, auth = Raised e ->
     SuiteKalshiClient.request auth transport rq w = (Raised e, w)) /\
  (forall u, auth = Ok u ->
     snd (SuiteKalshiClient.request auth transport rq w) = World.send rq w /\
     (fst (SuiteKalshiClient.request auth transport rq w) = Ok v ->
      exists resp, transport 0%nat = Ok resp /\
        200 <= status_code resp < 300 /\ json_body resp = Ok v) /\
     (forall resp, transport 0%nat = Ok resp -> ~ (200 <= status_code resp < 300) ->
      fst (SuiteKalshiClient.request auth transport rq w) =
        Raised (HTTPStatusError (status_code resp)))).
Proof.
  split; [intros e ->; reflexivity|intros u ->].
  unfold SuiteKalshiClient.request.
  destruct (transport 0%nat) as [resp|e] eqn:Ht.
  - destruct ((200 <=? status_code resp) && (status_code resp <? 300)) eqn:Hs.
    + apply andb_true_iff in Hs. destruct Hs as [H1 H2].
      apply Z.leb_le in H1. apply Z.ltb_lt in H2.
      split; [reflexivity|]. split.
      * intro Hv. exists resp. split; [reflexivity|]. split; [lia|exact Hv].
      * intros r Hr Hn. injection Hr as <-. lia.
    + split; [reflexivity|]. split; [discriminate|].
      intros r Hr _. injection Hr as <-. reflexivity.
  - split; [reflexivity|]. split; [discriminate|]. intros r Hr. discriminate.
Qed.

Lemma suite_request_single_shot_witness :
  SuiteKalshiClient.request (Raised ValueError) (fun _ => Ok (mkResponse 200 None (Ok (JObj []))))
    Fixtures.get_markets_request World.empty = (Raised ValueError, World.empty) /\
  (exists resp, (fun _ : nat => Ok (mkResponse 200 None (Ok (JObj [])))) 0%nat = Ok resp /\
     200 <= status_code resp < 300 /\ json_body resp = Ok (JObj [])) /\
  fst (SuiteKalshiClient.request (Ok tt) (fun _ => Ok (mkResponse 429 None (Ok (JObj []))))
         Fixtures.get_markets_request World.empty) = Raised (HTTPStatusError 429).
Proof.
  split; [|split].
  - exact (proj1 (suite_request_single_shot (Raised ValueError)
             (fun _ => Ok (mkResponse 200 None (Ok (JObj [])))) Fixtures.get_markets_request
             World.empty (JObj [])) ValueError eq_refl).
  - exact (proj1 (proj2 (proj2 (suite_request_single_shot (Ok tt)
             (fun _ => Ok (mkResponse 200 None (Ok (JObj [])))) Fixtures.get_markets_request
             World.empty (JObj [])) tt eq_refl)) eq_refl).
  - exact (proj2 (proj2 (proj2 (suite_request_single_shot (Ok tt)
             (fun _ => Ok (mkResponse 429 None (Ok (JObj []))))
             Fixtures.get_markets_request World.empty (JObj [])) tt eq_refl))
             (mkResponse 429 None (Ok (JObj []))) eq_refl ltac:(cbn; lia)).
Defined.

(** ** The package client's order book *)

Lemma json_get_raises (v : json) (k : string) (d : json) (e : PyExc) :
  Json.get v k d = Raised e -> e = AttributeError.
Proof. destruct v; cbn; try (intro H; injection H as <-; reflexivity).
  destruct (Json.lookup k _); discriminate.
Qed.

(** [OrderBook.from_api] and [KalshiClient.get_orderbook]: when the
    [yes] or [no] side of the book is a non-empty list of levels (rather
    than an object with [bids] and [asks]), building the book raises
    [AttributeError]; when both sides are absent or empty, the book has four
    empty lists. So [get_orderbook], given a 200 answer whose [orderbook]
    field has its [yes] side in the list format, raises [AttributeError]
    after a single request. *)
Theorem orderbook_from_api_formats (tk : string) (kvs : list (string * json)) :
  (forall x xs,
     Json.get (JObj kvs) "yes" JNull = Ok (JArr (x :: xs)) \/
     Json.get (JObj kvs) "no" JNull = Ok (JArr (x :: xs)) ->
     KalshiClient.orderbook_from_api tk (JObj kvs) = Raised AttributeError) /\
  (forall y n,
     Json.get (JObj kvs) "yes" JNull = Ok y -> Json.truthy y = false ->
     Json.get (JObj kvs) "no" JNull = Ok n -> Json.truthy n = false ->
     KalshiClient.orderbook_from_api tk (JObj kvs) =
       Ok (KalshiClient.mkOrderBook tk (JArr []) (JArr []) (JArr []) (JArr []))) /\
  (forall transport w resp x xs,
     transport 0%nat = Ok resp -> status_code resp = 200 ->
     json_body resp = Ok (JObj [("orderbook", JObj kvs)]%string) ->
     Json.get (JObj kvs) "yes" JNull = Ok (JArr (x :: xs)) ->
     KalshiClient.get_orderbook transport tk w =
       (Raised AttributeError,
        World.send (World.mkRequest "GET" ("/markets/" ++ tk ++ "/orderbook") JNull) w)).
Proof.
  split; [|split].
  - intros x xs Hxs. unfold KalshiClient.orderbook_from_api, bind.
    destruct (Json.get (JObj kvs) "yes" JNull) as [y|] eqn:Hy; [|cbn in Hy; destruct (Json.lookup _ _); discriminate].
    destruct (Json.get (JObj kvs) "no" JNull) as [n|] eqn:Hn; [|cbn in Hn; destruct (Json.lookup _ _); discriminate].
    destruct Hxs as [Hxs|Hxs]; injection Hxs as ->.
    + reflexivity.
    + change (KalshiClient.or_else (JArr (x :: xs)) (JObj [])) with (JArr (x :: xs)).
      destruct (Json.get (KalshiClient.or_else y (JObj [])) "bids" JNull) as [yb|e] eqn:Hyb.
      2: { apply json_get_raises in Hyb. subst e. reflexivity. }
      destruct (Json.get (KalshiClient.or_else y (JObj [])) "asks" JNull) as [ya|e] eqn:Hya.
      2: { apply json_get_raises in Hya. subst e. reflexivity. }
      reflexivity.
  - intros y n Hy Hyf Hn Hnf. unfold KalshiClient.orderbook_from_api, bind.
    rewrite Hy, Hn. unfold KalshiClient.or_else. rewrite Hyf, Hnf. reflexivity.
  - intros transport w resp x xs Ht Hs Hb Hy.
    unfold KalshiClient.get_orderbook, KalshiClient.request, KalshiClient.default_retries.
    cbn [KalshiClient.request_from]. rewrite Ht, Hs. cbn - [KalshiClient.orderbook_from_api].
    unfold KalshiClient.finish. rewrite Hs. cbn - [KalshiClient.orderbook_from_api].
    rewrite Hb. cbn - [KalshiClient.orderbook_from_api].
    destruct kvs as [|kv kvs']; [cbn in Hy; discriminate|].
    cbn - [KalshiClient.orderbook_from_api].
    unfold KalshiClient.orderbook_from_api, bind. rewrite Hy.
    destruct (Json.get (JObj (kv :: kvs')) "no" JNull) as [n|e] eqn:Hn; [reflexivity|].
    unfold Json.get in Hn. destruct (Json.lookup "no" (kv :: kvs')); discriminate.
Qed.

Lemma orderbook_from_api_formats_witness :
  KalshiClient.orderbook_from_api "FED"
    (JObj [("yes", JArr [JArr [JNum 40; JNum 100]]); ("no", JArr [JArr [JNum 55; JNum 80]])]%string)
    = Raised AttributeError /\
  KalshiClient.orderbook_from_api "FED" (JObj [("yes", JNull)]%string) =
    Ok (KalshiClient.mkOrderBook "FED" (JArr []) (JArr []) (JArr []) (JArr [])) /\
  KalshiClient.get_orderbook
    (fun _ => Ok (mkResponse 200 None
       (Ok (JObj [("orderbook", JObj [("yes", JArr [JArr [JNum 40; JNum 100]])])]%string))))
    "FED" World.empty =
  (Raised AttributeError,
   World.send (World.mkRequest "GET" ("/markets/" ++ "FED" ++ "/orderbook") JNull) World.empty).
Proof.
  split; [|split].
  - apply (proj1 (orderbook_from_api_formats "FED"
             [("yes", JArr [JArr [JNum 40; JNum 100]]); ("no", JArr [JArr [JNum 55; JNum 80]])]%string)
             (JArr [JNum 40; JNum 100]) []).
    left. reflexivity.
  - apply (proj1 (proj2 (orderbook_from_api_formats "FED" [("yes", JNull)]%string)) JNull JNull);
      reflexivity.
  - apply (proj2 (proj2 (orderbook_from_api_formats "FED"
             [("yes", JArr [JArr [JNum 40; JNum 100]])]%string))
             _ World.empty (mkResponse 200 None
               (Ok (JObj [("orderbook", JObj [("yes", JArr [JArr [JNum 40; JNum 100]])])]%string)))
             (JArr [JNum 40; JNum 100]) []); reflexivity.
Defined.

(** ** Market records of the package client *)

Lemma cents_field_ok (kvs : list (string * json)) (k : string) (q : Q) :
  KalshiClient.cents_field (JObj kvs) k = Ok q ->
  (forall c, Json.lookup k kvs = Some (JNum c) -> (q == c / 100)%Q) /\
  (forall v, Json.lookup k kvs = Some v -> Json.truthy v = false -> q = 0%Q) /\
  (Json.lookup k kvs = None -> q = 0%Q).
Proof.
  unfold KalshiClient.cents_field, bind. cbn [Json.get].
  destruct (Json.lookup k kvs) as [v|] eqn:Hl.
  - destruct (Json.truthy v) eqn:Ht.
    + destruct (Json.num v) as [c|] eqn:Hn; [|discriminate]. intro H. injection H as <-.
      split; [|split; [|discriminate]].
      * intros c' Hc. injection Hc as ->. cbn in Hn. injection Hn as ->. reflexivity.
      * intros v' Hv Hf. injection Hv as <-. congruence.
    + intro H. injection H as <-. split; [|split; [reflexivity|discriminate]].
      intros c Hc. injection Hc as ->. cbn in Ht.
      apply negb_false_iff in Ht. apply Qeq_bool_iff in Ht. rewrite Ht. reflexivity.
  - intro H. injection H as <-. split; [discriminate|]. split; [discriminate|reflexivity].
Qed.

Lemma cents_field_raised (kvs : list (string * json)) (k : string) (e : PyExc) :
  KalshiClient.cents_field (JObj kvs) k = Raised e ->
  e = TypeError /\
  exists v, Json.lookup k kvs = Some v /\ Json.truthy v = true /\ Json.num v = Raised TypeError.
Proof.
  unfold KalshiClient.cents_field, bind. cbn [Json.get].
  destruct (Json.lookup k kvs) as [v|] eqn:Hl; [|discriminate].
  destruct (Json.truthy v) eqn:Ht; [|discriminate].
  destruct (Json.num v) as [c|e'] eqn:Hn; [discriminate|].
  intro H. injection H as <-.
  assert (e' = TypeError) by (destruct v as [|[]| | | |]; cbn in Hn; congruence).
  subst e'. split; [reflexivity|]. exists v. auto.
Qed.

(** [Market.from_api] on a JSON object: each of the five price fields
    ([yes_bid], [yes_ask], [no_bid], [no_ask], [last_price]) is the number
    of cents divided by 100 when the field holds a number, and 0 when the
    field is absent or falsy. The only way the conversion fails is a
    [TypeError] from a truthy price field that is not a number (such as
    the string ["45"]). *)
Theorem market_from_api_prices (kvs : list (string * json)) :
  (forall m, KalshiClient.market_from_api (JObj kvs) = Ok m ->
   Forall (fun kq =>
      (forall c, Json.lookup (fst kq) kvs = Some (JNum c) -> (snd kq == c / 100)%Q) /\
      (forall v, Json.lookup (fst kq) kvs = Some v -> Json.truthy v = false -> snd kq = 0%Q) /\
      (Json.lookup (fst kq) kvs = None -> snd kq = 0%Q))
     [("yes_bid", KalshiClient.m_yes_bid m); ("yes_ask", KalshiClient.m_yes_ask m);
      ("no_bid", KalshiClient.m_no_bid m); ("no_ask", KalshiClient.m_no_ask m);
      ("last_price", KalshiClient.m_last_price m)]%string) /\
  (forall e, KalshiClient.market_from_api (JObj kvs) = Raised e ->
   e = TypeError /\
   exists k v, In k ["yes_bid"; "yes_ask"; "no_bid"; "no_ask"; "last_price"]%string /\
     Json.lookup k kvs = Some v /\ Json.truthy v = true /\ Json.num v = Raised TypeError).
Proof.
  split.
  - intros m H. unfold KalshiClient.market_from_api, bind in H. cbn [Json.get] in H.
    split_outcomes H.
    all: injection H as <-; cbn [KalshiClient.m_yes_bid KalshiClient.m_yes_ask
           KalshiClient.m_no_bid KalshiClient.m_no_ask KalshiClient.m_last_price fst snd].
    all: repeat constructor.
    all: match goal with
         | E : KalshiClient.cents_field _ ?k = Ok ?q |- context [?q] =>
             destruct (cents_field_ok _ _ _ E) as (E1 & E2 & E3); first [exact E1|exact E2|exact E3]
         end.
  - intros e H. unfold KalshiClient.market_from_api, bind in H. cbn [Json.get] in H.
    split_outcomes H.
    all: try (match goal with
              | E : match Json.lookup ?k ?l with _ => _ end = Raised _ |- _ =>
                  destruct (Json.lookup k l); discriminate
              end).
    all: match goal with
         | E : KalshiClient.cents_field _ ?k = Raised ?e' |- _ =>
             injection H as <-; destruct (cents_field_raised _ _ _ E) as [-> [v Hv]];
             split; [reflexivity|]; exists k, v; split; [cbn; tauto|exact Hv]
         end.
Qed.

Lemma market_from_api_prices_witness :
  (exists m,
     KalshiClient.market_from_api
       (JObj [("ticker", JStr "FED"); ("yes_bid", JNum 45); ("last_price", JNull)]%string) = Ok m /\
     (KalshiClient.m_yes_bid m == 45 / 100)%Q /\ KalshiClient.m_last_price m = 0%Q) /\
  (KalshiClient.market_from_api (JObj [("yes_bid", JStr "45")]%string) = Raised TypeError /\
   TypeError = TypeError /\
   exists k v, In k ["yes_bid"; "yes_ask"; "no_bid"; "no_ask"; "last_price"]%string /\
     Json.lookup k [("yes_bid", JStr "45")]%string = Some v /\ Json.truthy v = true /\
     Json.num v = Raised TypeError).
Proof.
  split.
  - set (kvs := [("ticker", JStr "FED"); ("yes_bid", JNum 45); ("last_price", JNull)]%string).
    assert (H : KalshiClient.market_from_api (JObj kvs) =
                Ok (match KalshiClient.market_from_api (JObj kvs) with
                    | Ok m => m
                    | Raised _ => KalshiClient.mkMarket JNull JNull JNull JNull 0 0 0 0
                                    JNull JNull 0 JNull JNull JNull
                    end)) by (vm_compute; reflexivity).
    eexists. split; [exact H|].
    pose proof (proj1 (market_from_api_prices kvs) _ H) as Hf.
    inversion Hf as [|? ? [Hyb _] Hf1]. inversion Hf1 as [|? ? _ Hf2].
    inversion Hf2 as [|? ? _ Hf3]. inversion Hf3 as [|? ? _ Hf4].
    inversion Hf4 as [|? ? [_ [Hlp _]] _].
    split; [apply Hyb; reflexivity|]. apply (Hlp JNull); reflexivity.
  - assert (H : KalshiClient.market_from_api (JObj [("yes_bid", JStr "45")]%string) =
                Raised TypeError) by (vm_compute; reflexivity).
    split; [exact H|].
    exact (proj2 (market_from_api_prices _) TypeError H).
Defined.

(** ** An empty keyword *)

Lemma contains_empty (s : string) : Str.contains EmptyString s = true.
Proof. destruct s; reflexivity. Qed.

Lemma matching_tickers_empty (ms : list json) :
  Forall (fun m => exists kvs t, m = JObj kvs /\ Json.lookup "ticker" kvs = Some (JStr t)) ms ->
  exists ts, NLPAgent.matching_tickers (JStr EmptyString) ms = Ok ts /\
    Forall2 (fun m t => Json.getitem m "ticker" = Ok t) ms ts.
Proof.
  induction 1 as [|m ms [kvs [t [-> Ht]]] _ [ts [Hts IH]]]; [exists []; split; constructor|].
  assert (Hm : NLPAgent.ticker_matches (JStr EmptyString) (JObj kvs) = Ok true).
  { unfold NLPAgent.ticker_matches, bind. cbn [NLPAgent.py_lower Json.get].
    rewrite Ht. cbn [NLPAgent.py_lower]. rewrite contains_empty. reflexivity. }
  exists (JStr t :: ts). cbn [NLPAgent.matching_tickers]. unfold bind at 1.
  rewrite Hm. cbn [Json.getitem]. rewrite Ht. cbn [bind]. rewrite Hts.
  split; [reflexivity|]. constructor; [cbn; rewrite Ht; reflexivity|exact IH].
Qed.

(** [NLPAgent.resolve_tickers] with the empty keyword: [""] occurs in every
    string, so when every market of the response is an object with a string
    [ticker], the result is the tickers of all the markets, in order. *)
Theorem resolve_tickers_empty_keyword (ms : list json) :
  Forall (fun m => exists kvs t, m = JObj kvs /\ Json.lookup "ticker" kvs = Some (JStr t)) ms ->
  Forall2 (fun m t => Json.getitem m "ticker" = Ok t) ms
    (NLPAgent.resolve_tickers (JStr EmptyString) (Ok (JObj [("markets", JArr ms)]%string))).
Proof.
  intro Hms. destruct (matching_tickers_empty ms Hms) as [ts [Hts H2]].
  unfold NLPAgent.resolve_tickers. cbn - [NLPAgent.matching_tickers].
  rewrite Hts. exact H2.
Qed.

Lemma resolve_tickers_empty_keyword_witness :
  Forall2 (fun m t => Json.getitem m "ticker" = Ok t)
    [Fixtures.kalshi_market; JObj [("ticker", JStr "CPI-24")]%string]
    (NLPAgent.resolve_tickers (JStr EmptyString)
       (Ok (JObj [("markets", JArr [Fixtures.kalshi_market;
                                    JObj [("ticker", JStr "CPI-24")]%string])]%string))).
Proof.
  apply resolve_tickers_empty_keyword.
  constructor; [eexists; eexists; split; [reflexivity|reflexivity]|].
  constructor; [eexists; eexists; split; [reflexivity|reflexivity]|constructor].
Defined.
